(** * pyfuzzylite: linguistic variables

    A shallow embedding of [fuzzylite/variable.py]: the classes [Variable]
    and [OutputVariable], their [value] setter, [fuzzify],
    [highest_membership], [defuzzify] and [clear].

    Conventions of the embedding.
    - A Python float and an element of a float64 array is a [spec_float],
      the Standard Library's specification of IEEE-754 values (binary64 is
      its instance with a 53 bit mantissa); comparisons are [SFltb] and
      [SFleb], under which NaN is unordered.
    - A [Scalar] (the alias [float | ndarray] of [fuzzylite/types.py]) is
      the list of the elements of the array in iteration order; a Python
      float and a 0-d array are the one-element list.
    - A method that may raise returns a [Py.result]; a method of
      [OutputVariable] that assigns attributes is a computation in the
      monad [OutputVariable.M], which threads the object and keeps the
      assignments made before an exception. *)

From Stdlib Require Import ZArith List String Bool Lia.
From Stdlib Require Import Floats.SpecFloat.
Import ListNotations.

Local Open Scope list_scope.

(** ** Python results and exceptions *)

Module Py.

(** The exception classes the module raises or lets through; [Exception]
    stands for every class that is not a [ValueError]. *)
Inductive exn : Type :=
| ValueError (msg : string)
| IndexError (msg : string)
| Exception (cls msg : string).

Inductive result (A : Type) : Type :=
| Ok (a : A)
| Raise (e : exn).

Arguments Ok {A} a.
Arguments Raise {A} e.

Definition is_ValueError (e : exn) : bool :=
  match e with
  | ValueError _ => true
  | _ => false
  end.

Definition bind {A B : Type} (r : result A) (k : A -> result B) : result B :=
  match r with
  | Ok a => k a
  | Raise e => Raise e
  end.

(** [with contextlib.suppress(ValueError): target = body], where [target]
    held [orelse] before the block. *)
Definition suppress_ValueError {A : Type} (orelse : A) (body : result A)
  : result A :=
  match body with
  | Ok a => Ok a
  | Raise e => if is_ValueError e then Ok orelse else Raise e
  end.

End Py.

Notation "x <~ r ;; k" := (Py.bind r (fun x => k))
  (at level 61, r at next level, right associativity).

(** ** Floats and arrays *)

Definition float : Type := spec_float.
Definition Scalar : Type := list float.

(** [fuzzylite.library]: [nan], [inf], and [scalar(x)], which makes a 0-d
    array of a float. *)
Definition nan : float := S754_nan.
Definition inf : float := S754_infinity false.
Definition scalar (x : float) : Scalar := [x].

(** The literal [0.0]. *)
Definition zero : float := S754_zero false.

(** The numpy functions the module calls, on float64. *)
Module Np.

Definition isnan (x : float) : bool :=
  match x with
  | S754_nan => true
  | _ => false
  end.

Definition isfinite (x : float) : bool :=
  match x with
  | S754_zero _ | S754_finite _ _ _ => true
  | _ => false
  end.

(** [x > y], [x < y], [x >= y], [x <= y] and [x == y]. *)
Definition gt (x y : float) : bool := SFltb y x.
Definition lt (x y : float) : bool := SFltb x y.
Definition ge (x y : float) : bool := SFleb y x.
Definition le (x y : float) : bool := SFleb x y.
Definition eq (x y : float) : bool := SFeqb x y.

(** The maximum and minimum of numpy's clip loop for floats
    ([_NPY_MAX], [_NPY_MIN]): the first argument when it is NaN, else
    [a > b ? a : b] and [a < b ? a : b].  A NaN bound makes the result NaN;
    of two zeros that compare equal the bound is returned. *)
Definition clip_max (a b : float) : float :=
  if isnan a then a else if gt a b then a else b.

Definition clip_min (a b : float) : float :=
  if isnan a then a else if lt a b then a else b.

(** [np.clip] on one element, and on an array with float bounds. *)
Definition clip1 (x a_min a_max : float) : float :=
  clip_min (clip_max x a_min) a_max.

Definition clip (a : Scalar) (a_min a_max : float) : Scalar :=
  map (fun x => clip1 x a_min a_max) a.

(** [np.take(a, -1)]: the last element of the flattened array; an
    [IndexError] on an empty one. *)
Fixpoint take_last (a : Scalar) : Py.result float :=
  match a with
  | [] => Py.Raise (Py.IndexError "cannot do a non-empty take from an empty axes.")
  | [x] => Py.Ok x
  | _ :: rest => take_last rest
  end.

(** [a[np.isnan(a)] = v]. *)
Definition fill_nan (a : Scalar) (v : float) : Scalar :=
  map (fun x => if isnan x then v else x) a.

(** [np.nditer(a, op_flags=[["readwrite"]])]: the iterator over the
    elements of [a]; without the flag [zerosize_ok] an array that has no
    element is refused with a [ValueError]. *)
Definition nditer (a : Scalar) : Py.result Scalar :=
  match a with
  | [] =>
      Py.Raise
        (Py.ValueError "Iteration of zero-sized operands is not enabled")
  | _ :: _ => Py.Ok a
  end.

(** [np.fabs]: the sign bit cleared; NaN stays NaN. *)
Definition fabs (x : float) : float := SFabs x.

End Np.

(** ** Terms, fuzzy sets and defuzzifiers

    [fuzzylite/term.py], [fuzzylite/norm.py], [fuzzylite/defuzzifier.py] and
    [fuzzylite/operation.py] are interfaces here: a term is its name and its
    membership function, a defuzzifier is its [defuzzify] method.
    [Variable.fuzzify] and [Variable.highest_membership] branch on
    [fx >= 0.0] and [y > result[0]], which have a truth value for a single
    float only, so a membership takes and returns one float; a defuzzifier
    returns an array. *)

Definition SNorm : Type := float -> float -> float.
Definition TNorm : Type := float -> float -> float.

Module Term.
Record t : Type := {
  name : string;
  membership : float -> Py.result float
}.
End Term.

Module Activated.
Record t : Type := {
  term : Term.t;
  degree : float;
  implication : option TNorm
}.
End Activated.

Module Aggregated.

Record t : Type := {
  name : string;
  minimum : float;
  maximum : float;
  aggregation : option SNorm;
  terms : list Activated.t
}.

(** [Aggregated(name=, minimum=, maximum=, aggregation=)]: no activated
    term yet. *)
Definition __init__ (name : string) (minimum maximum : float)
  (aggregation : option SNorm) : t :=
  {| name := name; minimum := minimum; maximum := maximum;
     aggregation := aggregation; terms := [] |}.

Definition set_minimum (a : t) (value : float) : t :=
  {| name := name a; minimum := value; maximum := maximum a;
     aggregation := aggregation a; terms := terms a |}.

Definition set_maximum (a : t) (value : float) : t :=
  {| name := name a; minimum := minimum a; maximum := value;
     aggregation := aggregation a; terms := terms a |}.

Definition set_aggregation (a : t) (value : option SNorm) : t :=
  {| name := name a; minimum := minimum a; maximum := maximum a;
     aggregation := value; terms := terms a |}.

Definition set_terms (a : t) (value : list Activated.t) : t :=
  {| name := name a; minimum := minimum a; maximum := maximum a;
     aggregation := aggregation a; terms := value |}.

(** Modelled from the spec: [Aggregated.clear] of [fuzzylite/term.py],
    which is not among the sources; it empties the sequence of activated
    terms and keeps the name, the range and the aggregation norm. *)
Definition clear (a : t) : t := set_terms a [].

End Aggregated.

(** A defuzzifier object is truthy: [not self.defuzzifier] holds for [None]
    only.  [defuzzify] returns the array of crisp values or raises. *)
Module Defuzzifier.
Record t : Type := {
  defuzzify : Aggregated.t -> float -> float -> Py.result Scalar
}.
End Defuzzifier.

Module Op.

(** Modelled from the spec: [Op.isnan] of [fuzzylite/operation.py], which
    is not among the sources; it tells whether its argument is NaN. *)
Definition isnan (x : float) : bool := Np.isnan x.

End Op.

(** The value the setter of [Variable.value] stores, given [lock_range] and
    the range as the object reads them:
    [np.clip(value, self.minimum, self.maximum) if self.lock_range else value]. *)
Definition locked_value (lock_range : bool) (minimum maximum : float)
  (value : Scalar) : Scalar :=
  if lock_range then Np.clip value minimum maximum else value.

(** ** Instance dictionaries

    [vars(self)] is the dictionary of the attributes of the instance, in
    the order the constructor assigned them; [__repr__] copies it and pops
    keys.  A dictionary is the list of its items in insertion order. *)

Module Dict.

(** The values the attributes of a variable hold. *)
Inductive value : Type :=
| Str (s : string)
| Bool (b : bool)
| Float (x : float)
| Array (a : Scalar)
| Terms (l : list Term.t)
| Fuzzy (a : Aggregated.t)
| Norm (n : option SNorm)
| Defuzz (d : option Defuzzifier.t).

Definition t : Type := list (string * value).

(** [key in d]. *)
Fixpoint has (d : t) (key : string) : bool :=
  match d with
  | [] => false
  | (k, _) :: rest => if String.eqb k key then true else has rest key
  end.

Fixpoint remove (d : t) (key : string) : t :=
  match d with
  | [] => []
  | (k, v) :: rest =>
      if String.eqb k key then rest else (k, v) :: remove rest key
  end.

(** [d.pop(key)], the value popped dropped: a [KeyError] on a missing
    key. *)
Definition pop (d : t) (key : string) : Py.result t :=
  if has d key then Py.Ok (remove d key)
  else Py.Raise (Py.Exception "KeyError" key).

(** [d[key] = v]: the item is replaced in place, a new key goes last. *)
Fixpoint set (d : t) (key : string) (v : value) : t :=
  match d with
  | [] => [(key, v)]
  | (k, w) :: rest =>
      if String.eqb k key then (k, v) :: rest else (k, w) :: set rest key v
  end.

Definition keys (d : t) : list string := map fst d.

End Dict.

(** The truth value of a string: [not s] holds for the empty string only. *)
Definition str_truth (s : string) : bool :=
  match s with
  | EmptyString => false
  | String _ _ => true
  end.

(** ** class Variable *)

Module Variable_.

Record t : Type := {
  name : string;
  description : string;
  enabled : bool;
  minimum : float;
  maximum : float;
  lock_range : bool;
  terms : list Term.t;
  _value : Scalar
}.

(** The getter of the property [value]. *)
Definition value (self : t) : Scalar := _value self.

(** The setter of the property [value]. *)
Definition set_value (self : t) (value : Scalar) : t :=
  {| name := name self; description := description self;
     enabled := enabled self; minimum := minimum self;
     maximum := maximum self; lock_range := lock_range self;
     terms := terms self;
     _value := locked_value (lock_range self) (minimum self) (maximum self) value |}.

(** [Variable.__init__]: the attributes are assigned in the order of the
    source, so [self.value = scalar(nan)] goes through the setter with the
    range and [lock_range] already in place. *)
Definition __init__ (name description : string) (enabled : bool)
  (minimum maximum : float) (lock_range : bool) (terms : list Term.t) : t :=
  set_value
    {| name := name; description := description; enabled := enabled;
       minimum := minimum; maximum := maximum; lock_range := lock_range;
       terms := terms; _value := [] |}
    (scalar nan).

Section Fuzzify.

(** [Op.str] of [fuzzylite/operation.py] formats a float with the
    configured number of decimals; the module is not among the sources
    and the format is left open. *)
Variable Op_str : float -> string.

(** The text appended for [term] whose membership is [fx], given the
    list [result] built so far. *)
Definition fuzzify_entry (result : list string) (fx : float)
  (term : Term.t) : string :=
  match result with
  | [] => String.append (Op_str fx) (String.append "/" (Term.name term))
  | _ :: _ =>
      let pm := if Np.ge fx zero || Op.isnan fx then "+" else "-" in
      String.append " "
        (String.append pm
           (String.append " "
              (String.append (Op_str fx)
                 (String.append "/" (Term.name term)))))
  end%string.

(** The [for term in self.terms] loop of [fuzzify], from the state
    [result]. *)
Fixpoint fuzzify_loop (x : float) (terms : list Term.t)
  (result : list string) : Py.result (list string) :=
  match terms with
  | [] => Py.Ok result
  | term :: rest =>
      fx <~ Py.suppress_ValueError nan (Term.membership term x) ;;
      fuzzify_loop x rest (result ++ [fuzzify_entry result fx term])
  end.

Definition fuzzify (self : t) (x : float) : Py.result string :=
  result <~ fuzzify_loop x (terms self) [] ;;
  Py.Ok (String.concat "" result).

End Fuzzify.

(** The [for term in self.terms] loop of [highest_membership], from the
    state [result]. *)
Fixpoint highest_membership_loop (x : float) (terms : list Term.t)
  (result : float * option Term.t) : Py.result (float * option Term.t) :=
  match terms with
  | [] => Py.Ok result
  | term :: rest =>
      y <~ Py.suppress_ValueError nan (Term.membership term x) ;;
      highest_membership_loop x rest
        (if Np.gt y (fst result) then (y, Some term) else result)
  end.

Definition highest_membership (self : t) (x : float)
  : Py.result (float * option Term.t) :=
  highest_membership_loop x (terms self) (zero, None).

(** *** The remaining members of [Variable] *)

Definition with__value (self : t) (x : Scalar) : t :=
  {| name := name self; description := description self;
     enabled := enabled self; minimum := minimum self;
     maximum := maximum self; lock_range := lock_range self;
     terms := terms self; _value := x |}.

(** The getter and the setter of the property [range]:
    [self.minimum, self.maximum = min_max]. *)
Definition range (self : t) : float * float := (minimum self, maximum self).

Definition set_range (self : t) (min_max : float * float) : t :=
  {| name := name self; description := description self;
     enabled := enabled self; minimum := fst min_max;
     maximum := snd min_max; lock_range := lock_range self;
     terms := terms self; _value := _value self |}.

(** The [for term in self.terms] loop of [term(name)]: the term returned,
    or [None] when the loop runs out. *)
Fixpoint term_loop (terms : list Term.t) (name : string) : option Term.t :=
  match terms with
  | [] => None
  | term :: rest =>
      if String.eqb (Term.name term) name then Some term
      else term_loop rest name
  end.

Section TermLookup.

(** Python's [repr] of a list of strings, which the message of the error
    embeds. *)
Variable repr_names : list string -> string.

Definition term (self : t) (name : string) : Py.result Term.t :=
  match term_loop (terms self) name with
  | Some term => Py.Ok term
  | None =>
      Py.Raise
        (Py.ValueError
           (String.append "term '"
              (String.append name
                 (String.append "' not found in "
                    (repr_names (map Term.name (terms self)))))))
  end.

End TermLookup.

(** [vars(self)] of an instance that [Variable.__init__] set up. *)
Definition __dict__ (self : t) : Dict.t :=
  [("name", Dict.Str (name self));
   ("description", Dict.Str (description self));
   ("enabled", Dict.Bool (enabled self));
   ("minimum", Dict.Float (minimum self));
   ("maximum", Dict.Float (maximum self));
   ("lock_range", Dict.Bool (lock_range self));
   ("terms", Dict.Terms (terms self));
   ("_value", Dict.Array (_value self))]%string.

(** The dictionary [fields] that [__repr__] hands to
    [representation.as_constructor]. *)
Definition repr_fields (self : t) : Py.result Dict.t :=
  let fields := __dict__ self in
  fields <~ Dict.pop fields "_value" ;;
  fields <~ (if negb (str_truth (description self))
             then Dict.pop fields "description" else Py.Ok fields) ;;
  fields <~ (if enabled self
             then Dict.pop fields "enabled" else Py.Ok fields) ;;
  Py.Ok fields.

Section Repr.

(** [representation.as_constructor] is not among the sources. *)
Variable as_constructor : t -> Dict.t -> string.

Definition __repr__ (self : t) : Py.result string :=
  fields <~ repr_fields self ;;
  Py.Ok (as_constructor self fields).

End Repr.

End Variable_.

(** ** class OutputVariable *)

Module OutputVariable.

(** The attributes of the instance.  [minimum], [maximum] and
    [aggregation] are properties that read and write [self.fuzzy]; [name]
    is an attribute of its own, assigned by [Variable.__init__]. *)
Record t : Type := {
  fuzzy : Aggregated.t;
  name : string;
  description : string;
  enabled : bool;
  lock_range : bool;
  terms : list Term.t;
  _value : Scalar;
  defuzzifier : option Defuzzifier.t;
  lock_previous : bool;
  default_value : float;
  previous_value : float
}.

(** *** Attribute access *)

Definition minimum (self : t) : float := Aggregated.minimum (fuzzy self).
Definition maximum (self : t) : float := Aggregated.maximum (fuzzy self).
Definition aggregation (self : t) : option SNorm :=
  Aggregated.aggregation (fuzzy self).
Definition value (self : t) : Scalar := _value self.

Definition with_fuzzy (self : t) (x : Aggregated.t) : t :=
  {| fuzzy := x; name := name self; description := description self;
     enabled := enabled self; lock_range := lock_range self;
     terms := terms self; _value := _value self;
     defuzzifier := defuzzifier self; lock_previous := lock_previous self;
     default_value := default_value self;
     previous_value := previous_value self |}.

Definition with_name (self : t) (x : string) : t :=
  {| fuzzy := fuzzy self; name := x; description := description self;
     enabled := enabled self; lock_range := lock_range self;
     terms := terms self; _value := _value self;
     defuzzifier := defuzzifier self; lock_previous := lock_previous self;
     default_value := default_value self;
     previous_value := previous_value self |}.

Definition with__value (self : t) (x : Scalar) : t :=
  {| fuzzy := fuzzy self; name := name self; description := description self;
     enabled := enabled self; lock_range := lock_range self;
     terms := terms self; _value := x;
     defuzzifier := defuzzifier self; lock_previous := lock_previous self;
     default_value := default_value self;
     previous_value := previous_value self |}.

Definition with_previous_value (self : t) (x : float) : t :=
  {| fuzzy := fuzzy self; name := name self; description := description self;
     enabled := enabled self; lock_range := lock_range self;
     terms := terms self; _value := _value self;
     defuzzifier := defuzzifier self; lock_previous := lock_previous self;
     default_value := default_value self;
     previous_value := x |}.

Definition with_lock_range (self : t) (x : bool) : t :=
  {| fuzzy := fuzzy self; name := name self; description := description self;
     enabled := enabled self; lock_range := x;
     terms := terms self; _value := _value self;
     defuzzifier := defuzzifier self; lock_previous := lock_previous self;
     default_value := default_value self;
     previous_value := previous_value self |}.

(** [self.name = x]: no property of the class intercepts the assignment,
    the instance attribute is written and [self.fuzzy] is not touched. *)
Definition set_name (self : t) (x : string) : t := with_name self x.

(** The setters of the properties [minimum], [maximum], [aggregation]. *)
Definition set_minimum (self : t) (x : float) : t :=
  with_fuzzy self (Aggregated.set_minimum (fuzzy self) x).

Definition set_maximum (self : t) (x : float) : t :=
  with_fuzzy self (Aggregated.set_maximum (fuzzy self) x).

Definition set_aggregation (self : t) (x : option SNorm) : t :=
  with_fuzzy self (Aggregated.set_aggregation (fuzzy self) x).

(** The setter of [value], inherited from [Variable]; [self.minimum] and
    [self.maximum] resolve to the properties above. *)
Definition set_value (self : t) (x : Scalar) : t :=
  with__value self
    (locked_value (lock_range self) (minimum self) (maximum self) x).

(** [OutputVariable.__init__]: [self.fuzzy] first, then the attributes of
    [Variable.__init__] in its order (name, description, enabled, minimum,
    maximum, lock_range, terms, value), then those of the subclass. *)
Definition __init__ (name description : string) (enabled : bool)
  (minimum maximum : float) (lock_range lock_previous : bool)
  (default_value : float) (aggregation : option SNorm)
  (defuzzifier : option Defuzzifier.t) (terms : list Term.t) : t :=
  let fuzzy := Aggregated.__init__ name minimum maximum aggregation in
  let fuzzy := Aggregated.set_minimum fuzzy minimum in
  let fuzzy := Aggregated.set_maximum fuzzy maximum in
  set_value
    {| fuzzy := fuzzy; name := name; description := description;
       enabled := enabled; lock_range := lock_range; terms := terms;
       _value := []; defuzzifier := defuzzifier;
       lock_previous := lock_previous; default_value := default_value;
       previous_value := nan |}
    (scalar nan).

(** *** Methods that assign attributes

    A method is a function from the object to its outcome and the object
    as the method left it. *)

Definition M (A : Type) : Type := t -> Py.result A * t.

Definition ret {A : Type} (a : A) : M A := fun self => (Py.Ok a, self).

Definition raise {A : Type} (e : Py.exn) : M A :=
  fun self => (Py.Raise e, self).

Definition bind {A B : Type} (m : M A) (k : A -> M B) : M B :=
  fun self =>
    match m self with
    | (Py.Ok a, self') => k a self'
    | (Py.Raise e, self') => (Py.Raise e, self')
    end.

(** Reading [self.f], assigning through [f], and a call that touches no
    attribute. *)
Definition get {A : Type} (f : t -> A) : M A :=
  fun self => (Py.Ok (f self), self).

Definition assign (f : t -> t) : M unit :=
  fun self => (Py.Ok tt, f self).

Definition call {A : Type} (r : Py.result A) : M A :=
  fun self => (r, self).

(** Reading [self.value]. *)
Definition get_value : M Scalar := get value.

Declare Scope method_scope.
Delimit Scope method_scope with method.

Notation "x <- m ;; k" := (bind m (fun x => k))
  (at level 61, m at next level, right associativity) : method_scope.
Notation "m ;; k" := (bind m (fun _ => k))
  (at level 61, right associativity) : method_scope.

Local Open Scope method_scope.

(** The body of the [for value_i in iterator] loop of [defuzzify], run over
    the elements [value] the iterator still has to visit; [previous_value]
    is the local of that name.  The iterator is made by [Np.nditer], which
    raises on an array without elements before the loop is entered. *)
Fixpoint lock_previous_loop (previous_value : float) (value : Scalar)
  : Scalar :=
  match value with
  | [] => []
  | value_i :: rest =>
      if Np.isnan value_i
      then previous_value :: lock_previous_loop previous_value rest
      else value_i :: lock_previous_loop value_i rest
  end.

Definition defuzzify : M unit :=
  enabled <- get enabled ;;
  if negb enabled then ret tt else
  defuzzifier <- get defuzzifier ;;
  match defuzzifier with
  | None =>
      name <- get name ;;
      raise (Py.ValueError
               (String.append "expected a defuzzifier in output variable '"
                  (String.append name "', but found None")))
  | Some defuzzifier =>
      (* value at t+1 *)
      fuzzy <- get fuzzy ;;
      minimum <- get minimum ;;
      maximum <- get maximum ;;
      value <- call (Defuzzifier.defuzzify defuzzifier fuzzy minimum maximum) ;;
      (* previous value is the last element of the value at t *)
      value_t <- get_value ;;
      last <- call (Np.take_last value_t) ;;
      assign (fun self => with_previous_value self last) ;;
      (* locking previous values *)
      lock_previous <- get lock_previous ;;
      value <-
        (if lock_previous
         then
           iterator <- call (Np.nditer value) ;;
           previous_value <- get previous_value ;;
           ret (lock_previous_loop previous_value iterator)
         else ret value) ;;
      (* applying default values *)
      default_value <- get default_value ;;
      let value :=
        if negb (Np.isnan default_value) then Np.fill_nan value default_value
        else value in
      (* committing the value *)
      assign (fun self => set_value self value)
  end.

Definition clear : M unit :=
  assign (fun self => with_fuzzy self (Aggregated.clear (fuzzy self))) ;;
  assign (fun self => with_previous_value self nan) ;;
  assign (fun self => set_value self (scalar nan)).

(** *** The remaining members of [OutputVariable] *)

(** The property [range], inherited: the assignments go through the
    setters of [minimum] and [maximum]. *)
Definition range (self : t) : float * float := (minimum self, maximum self).

Definition set_range (self : t) (min_max : float * float) : t :=
  set_maximum (set_minimum self (fst min_max)) (snd min_max).

(** [vars(self)] of an instance that [OutputVariable.__init__] set up:
    [minimum], [maximum] and [aggregation] are properties and have no
    item. *)
Definition __dict__ (self : t) : Dict.t :=
  [("fuzzy", Dict.Fuzzy (fuzzy self));
   ("name", Dict.Str (name self));
   ("description", Dict.Str (description self));
   ("enabled", Dict.Bool (enabled self));
   ("lock_range", Dict.Bool (lock_range self));
   ("terms", Dict.Terms (terms self));
   ("_value", Dict.Array (_value self));
   ("defuzzifier", Dict.Defuzz (defuzzifier self));
   ("lock_previous", Dict.Bool (lock_previous self));
   ("default_value", Dict.Float (default_value self));
   ("previous_value", Dict.Float (previous_value self))]%string.

(** The dictionary [fields] that [__repr__] hands to
    [representation.as_constructor]. *)
Definition repr_fields (self : t) : Py.result Dict.t :=
  let fields := __dict__ self in
  let fields := Dict.set fields "minimum" (Dict.Float (minimum self)) in
  let fields := Dict.set fields "maximum" (Dict.Float (maximum self)) in
  let fields := Dict.set fields "aggregation" (Dict.Norm (aggregation self)) in
  fields <~ Dict.pop fields "fuzzy" ;;
  fields <~ Dict.pop fields "_value" ;;
  fields <~ Dict.pop fields "previous_value" ;;
  fields <~ (if negb (str_truth (description self))
             then Dict.pop fields "description" else Py.Ok fields) ;;
  fields <~ (if enabled self
             then Dict.pop fields "enabled" else Py.Ok fields) ;;
  Py.Ok fields.

Section Repr.

Variable as_constructor : t -> Dict.t -> string.

Definition __repr__ (self : t) : Py.result string :=
  fields <~ repr_fields self ;;
  Py.Ok (as_constructor self fields).

End Repr.

Section FuzzyValue.

(** [Op.str] and [Aggregated.activation_degree] are not among the sources:
    the format of a float and the degree to which the fuzzy set activates
    a term are left open.  The degree is one float, [degree >= 0] is
    tested for its truth. *)
Variable Op_str : float -> string.
Variable activation_degree : Aggregated.t -> Term.t -> float.

Definition fuzzy_value_entry (result : list string) (degree : float)
  (term : Term.t) : string :=
  match result with
  | [] => String.append (Op_str degree) (String.append "/" (Term.name term))
  | _ :: _ =>
      let pm := if Op.isnan degree || Np.ge degree zero then "+" else "-" in
      String.append " "
        (String.append pm
           (String.append " "
              (String.append (Op_str (Np.fabs degree))
                 (String.append "/" (Term.name term)))))
  end%string.

(** The [for term in self.terms] loop of [fuzzy_value], from the state
    [result]. *)
Fixpoint fuzzy_value_loop (fuzzy : Aggregated.t) (terms : list Term.t)
  (result : list string) : list string :=
  match terms with
  | [] => result
  | term :: rest =>
      let degree := activation_degree fuzzy term in
      fuzzy_value_loop fuzzy rest
        (result ++ [fuzzy_value_entry result degree term])
  end.

Definition fuzzy_value (self : t) : string :=
  String.concat "" (fuzzy_value_loop (fuzzy self) (terms self) []).

End FuzzyValue.

End OutputVariable.

(** ** Notions the statements use *)

(** The degree the loops of [fuzzify] and [highest_membership] go on with:
    what [term.membership(x)] returns, and NaN when the call raises. *)
Definition degree_at (x : float) (term : Term.t) : float :=
  match Term.membership term x with
  | Py.Ok y => y
  | Py.Raise _ => nan
  end.

(** Every membership of [terms] at [x] returns or raises a [ValueError], the
    evaluation error that [contextlib.suppress] catches. *)
Definition evaluation_errors_only (x : float) (terms : list Term.t) : Prop :=
  forall term e,
    In term terms -> Term.membership term x = Py.Raise e ->
    Py.is_ValueError e = true.

(** [lo <= y <= hi]. *)
Definition within (lo hi y : float) : Prop :=
  Np.le lo y = true /\ Np.le y hi = true.

(** The clamp as the specification words it, to compare the setter with:
    the lower bound for a value below the range, the upper bound for a
    value above it, the value itself otherwise. *)
Definition spec_clamp (x lo hi : float) : float :=
  if SFltb x lo then lo else if SFltb hi x then hi else x.

(** The same float: identical, NaN included, or equal under [==], which
    sets the two zeros equal and nothing else. *)
Definition same_float (a b : float) : Prop :=
  a = b \/ SFeqb a b = true.

(** The value the variable holds went through the setter of [value] under
    the range and the [lock_range] the variable has now, as the value a
    pass of [defuzzify] or [clear] leaves. *)
Definition stored_by_setter (self : OutputVariable.t) : Prop :=
  exists x,
    OutputVariable.value self =
    locked_value (OutputVariable.lock_range self)
      (OutputVariable.minimum self) (OutputVariable.maximum self) x.

(** The array [defuzzify] passes to the setter, from the raw result [raw]
    and the last element [p] of the value held: previous values locked, then
    the default applied. *)
Definition finalized (self : OutputVariable.t) (p : float) (raw : Scalar)
  : Scalar :=
  let value :=
    if OutputVariable.lock_previous self
    then OutputVariable.lock_previous_loop p raw
    else raw in
  if negb (Np.isnan (OutputVariable.default_value self))
  then Np.fill_nan value (OutputVariable.default_value self)
  else value.

(** The fuzzification format as the specification words it, to compare
    [Variable.fuzzify] with: an entry is [mu/name]; from the second entry on
    it follows a separator, [-] for a negative degree and [+] otherwise. *)
Section FuzzifyFormat.

Variable Op_str : float -> string.
Variable x : float.

Definition spec_separator (mu : float) : string :=
  if Np.lt mu zero then "-" else "+".




End FuzzifyFormat.

(** What the constructor of an [OutputVariable] takes: two variables of the
    same configuration differ in the value held, the previous value, and
    the name and the activated terms of the fuzzy set at most. *)
Definition same_configuration (v w : OutputVariable.t) : Prop :=
  OutputVariable.name v = OutputVariable.name w /\
  OutputVariable.description v = OutputVariable.description w /\
  OutputVariable.enabled v = OutputVariable.enabled w /\
  OutputVariable.minimum v = OutputVariable.minimum w /\
  OutputVariable.maximum v = OutputVariable.maximum w /\
  OutputVariable.lock_range v = OutputVariable.lock_range w /\
  OutputVariable.lock_previous v = OutputVariable.lock_previous w /\
  OutputVariable.default_value v = OutputVariable.default_value w /\
  OutputVariable.aggregation v = OutputVariable.aggregation w /\
  OutputVariable.defuzzifier v = OutputVariable.defuzzifier w /\
  OutputVariable.terms v = OutputVariable.terms w.

(** The result of the defuzzifier of [self], when it returns, has at least
    one element: [np.nditer] refuses to iterate an array without elements
    (a [ValueError]), after [previous_value] was assigned. *)
Definition result_has_elements (self : OutputVariable.t) : Prop :=
  forall d raw,
    OutputVariable.defuzzifier self = Some d ->
    Defuzzifier.defuzzify d (OutputVariable.fuzzy self)
      (OutputVariable.minimum self) (OutputVariable.maximum self)
      = Py.Ok raw ->
    raw <> [].

(** The element a NaN takes where previous values are locked, in closed
    form: the last of the elements [earlier] in the array that is not NaN,
    and [previous_value] when there is none. *)
Definition nearest_valid (previous_value : float) (earlier : Scalar) : float :=
  last (filter (fun y => negb (Np.isnan y)) earlier) previous_value.

(** The value a pass stores for a NaN result, before the range lock: the
    last value held when [lock_previous] is set and that value is not NaN,
    the default otherwise. *)
Definition nan_replacement (self : OutputVariable.t) (p : float) : float :=
  if OutputVariable.lock_previous self && negb (Np.isnan p)
  then p
  else OutputVariable.default_value self.

(** The entries of [OutputVariable.fuzzy_value] in closed form: the first
    is [Op.str(degree)/name]; a later one has the sign as separator and the
    magnitude as number. *)
Section FuzzyValueFormat.

Variable Op_str : float -> string.
Variable activation_degree : Aggregated.t -> Term.t -> float.
Variable fuzzy : Aggregated.t.

Definition fuzzy_first_entry (term : Term.t) : string :=
  String.append (Op_str (activation_degree fuzzy term))
    (String.append "/" (Term.name term)).

Definition fuzzy_later_entry (term : Term.t) : string :=
  String.append " "
    (String.append (spec_separator (activation_degree fuzzy term))
       (String.append " "
          (String.append (Op_str (Np.fabs (activation_degree fuzzy term)))
             (String.append "/" (Term.name term))))).

Definition fuzzy_entries (terms : list Term.t) : list string :=
  match terms with
  | [] => []
  | term :: rest => fuzzy_first_entry term :: map fuzzy_later_entry rest
  end.

End FuzzyValueFormat.

(** ** Objects of the examples *)

Module Example.

(** The doubles [1.0], [0.5], [0.25], [-0.5], [5.0], and those nearest to
    [0.8] and [1.7]. *)
Definition one : float := S754_finite false 4503599627370496 (-52).
Definition half : float := S754_finite false 4503599627370496 (-53).
Definition quarter : float := S754_finite false 4503599627370496 (-54).
Definition minus_half : float := S754_finite true 4503599627370496 (-53).
Definition five : float := S754_finite false 5629499534213120 (-50).
Definition f0_8 : float := S754_finite false 7205759403792794 (-53).
Definition f1_7 : float := S754_finite false 7656119366529843 (-52).

(** A term of constant membership, and one whose membership raises. *)
Definition constant (name : string) (y : float) : Term.t :=
  {| Term.name := name; Term.membership := fun _ => Py.Ok y |}.

Definition failing (name : string) : Term.t :=
  {| Term.name := name;
     Term.membership := fun _ => Py.Raise (Py.ValueError "no engine") |}.

(** A defuzzifier that yields [empty] on a fuzzy set without activated
    terms and [otherwise] on any other. *)
Definition two_valued (empty otherwise : float) : Defuzzifier.t :=
  {| Defuzzifier.defuzzify := fun fuzzy _ _ =>
       match Aggregated.terms fuzzy with
       | [] => Py.Ok (scalar empty)
       | _ :: _ => Py.Ok (scalar otherwise)
       end |}.

Definition activation : Activated.t :=
  {| Activated.term := constant "left" half; Activated.degree := one;
     Activated.implication := None |}.

(** Scenario "lock precedence": range [0, 1], [lock_range], default 0.5,
    [lock_previous]; the variable holds 0.8 and the defuzzifier yields NaN
    on this pass and 1.7 once a term is activated. *)
Definition steer : OutputVariable.t :=
  OutputVariable.set_value
    (OutputVariable.__init__ "steer" "" true zero one true true half None
       (Some (two_valued nan f1_7)) [])
    (scalar f0_8).

Definition activate (self : OutputVariable.t) : OutputVariable.t :=
  OutputVariable.with_fuzzy self
    (Aggregated.set_terms (OutputVariable.fuzzy self) [activation]).

(** The same variable after the pass that yields NaN, with a term
    activated for the next pass. *)
Definition steer_next : OutputVariable.t :=
  activate (snd (OutputVariable.defuzzify steer)).

(** The engine empties the fuzzy set before the rules of a pass fire. *)
Definition deactivate (self : OutputVariable.t) : OutputVariable.t :=
OutputVariable.with_fuzzy self (Aggregated.clear (OutputVariable.fuzzy self)).

(** A variable without locks or default whose defuzzifier yields 0.8 once a
    term is activated and NaN otherwise; [idle] is that variable after a
    pass that yields 0.8 and a pass that yields NaN: it holds NaN and its
    [previous_value] is 0.8. *)
Definition fresh : OutputVariable.t :=
OutputVariable.__init__ "steer" "" true zero one false false nan None
  (Some (two_valued nan f0_8)) [].

Definition idle : OutputVariable.t :=
snd (OutputVariable.defuzzify
       (deactivate (snd (OutputVariable.defuzzify (activate fresh))))).

(** A variable whose defuzzifier yields [+inf]; it holds 0.8 and its
    default is 0.5. *)
Definition overflowing : OutputVariable.t :=
  OutputVariable.set_value
    (OutputVariable.__init__ "steer" "" true zero one false true half None
       (Some (two_valued inf inf)) [])
    (scalar f0_8).

(** The variables of the remaining examples: without a defuzzifier,
    disabled, and an input-like variable of three terms. *)
Definition bare : OutputVariable.t :=
  OutputVariable.__init__ "steer" "" true zero one true true half None None [].

Definition disabled : OutputVariable.t :=
  OutputVariable.__init__ "steer" "" false zero one true true half None None [].

Definition obstacle : Variable_.t :=
  Variable_.__init__ "obstacle" "" true zero one false
    [constant "left" quarter; failing "ahead"; constant "right" minus_half;
     constant "far" quarter].

(** A stand-in for [Op.str] on the values of the examples. *)
Definition Op_str (y : float) : string :=
  match y with
  | S754_nan => "nan"
  | S754_finite false _ (-54) => "0.250"
  | S754_finite true _ (-53) => "-0.500"
  | _ => "?"
  end.

(** A term whose membership raises a [TypeError], and a variable that has
    it third. *)
Definition broken (name : string) : Term.t :=
{| Term.name := name;
   Term.membership := fun _ => Py.Raise (Py.Exception "TypeError" "bad operand") |}.

Definition faulty : Variable_.t :=
Variable_.__init__ "obstacle" "" true zero one false
  [constant "left" quarter; failing "ahead"; broken "right";
   constant "far" quarter].

(** A variable with two terms of the same name. *)
Definition ambiguous : Variable_.t :=
Variable_.__init__ "obstacle" "" true zero one false
  [constant "left" quarter; constant "right" half; constant "left" one].

(** A stand-in for the [repr] of a list of names. *)
Definition repr_names (names : list string) : string :=
String.concat ", " names.

(** An activation degree: 0.0 on a fuzzy set without activated terms,
    else -0.5 for the term [left] and 0.25 for any other. *)
Definition activation_degree (fuzzy : Aggregated.t) (term : Term.t) : float :=
match Aggregated.terms fuzzy with
| [] => zero
| _ :: _ => if String.eqb (Term.name term) "left" then minus_half
            else quarter
end.

(** A stand-in for [Op.str] that also prints 0.5. *)
Definition decimals (y : float) : string :=
match y with
| S754_finite false _ (-53) => "0.500"
| _ => Op_str y
end.

(** An output variable with two terms, one activated. *)
Definition steering : OutputVariable.t :=
activate
  (OutputVariable.__init__ "steer" "turn" false zero one true true half None
     (Some (two_valued nan f1_7))
     [constant "right" quarter; constant "left" half]).

(** A defuzzifier that raises, and a variable that has it. *)
Definition raising : Defuzzifier.t :=
{| Defuzzifier.defuzzify := fun _ _ _ =>
     Py.Raise (Py.ValueError "no aggregation") |}.

Definition unaggregated : OutputVariable.t :=
OutputVariable.set_value
  (OutputVariable.__init__ "steer" "" true zero one true true half None
     (Some raising) [])
  (scalar f0_8).

(** A defuzzifier that yields an empty array, and a variable that has
    it. *)
Definition hollow : Defuzzifier.t :=
{| Defuzzifier.defuzzify := fun _ _ _ => Py.Ok [] |}.

Definition hollowed : OutputVariable.t :=
OutputVariable.set_value
  (OutputVariable.__init__ "steer" "" true zero one true false half None
     (Some hollow) [])
  (scalar f0_8).

(** The variable of the scenario after its range was narrowed to
    [0, 0.5]: it still holds 0.8. *)
Definition narrowed : OutputVariable.t :=
OutputVariable.set_range steer (zero, half).

(** A variable of the reversed range [1, 0] with [lock_range], whose
    defuzzifier yields 0.5. *)
Definition reversed : OutputVariable.t :=
OutputVariable.__init__ "steer" "" true one zero true false nan None
  (Some (two_valued half half)) [].

(** A disabled variable that took the value 5.0 without [lock_range] and
    had [lock_range] set afterwards. *)
Definition late_locked : OutputVariable.t :=
OutputVariable.with_lock_range
  (OutputVariable.set_value
     (OutputVariable.__init__ "steer" "" false zero one false false nan None
        (Some (two_valued half half)) [])
     (scalar five))
  true.

(** A variable with [lock_previous] whose defuzzifier yields an empty
    array; it holds 0.8 and its previous value is NaN. *)
Definition hollowed_locked : OutputVariable.t :=
OutputVariable.set_value
  (OutputVariable.__init__ "steer" "" true zero one true true half None
     (Some hollow) [])
  (scalar f0_8).

(** A variable that holds the empty array. *)
Definition emptied : OutputVariable.t :=
OutputVariable.set_value steer [].

End Example.

(** * Properties *)

(** ** The order of IEEE-754 values *)

Section FloatOrder.

Local Ltac cases_compare :=
  repeat match goal with
  | |- context [Pos.compare_cont Eq ?m ?n] =>
      change (Pos.compare_cont Eq m n) with (Pos.compare m n);
      destruct (Pos.compare_spec m n)
  | H : context [Pos.compare_cont Eq ?m ?n] |- _ =>
      change (Pos.compare_cont Eq m n) with (Pos.compare m n) in H;
      destruct (Pos.compare_spec m n)
  | |- context [Z.compare ?m ?n] => destruct (Z.compare_spec m n)
  | H : context [Z.compare ?m ?n] |- _ => destruct (Z.compare_spec m n)
  end.

Local Ltac by_cases_on_floats :=
  intros;
  repeat match goal with
  | x : float |- _ => destruct x as [[]|[]| |[] ? ?]
  end;
  cbn in *; try reflexivity; try discriminate;
  cases_compare; cbn in *; subst;
  try reflexivity; try discriminate; try lia.

Lemma SFcompare_antisym (a b : float) :
  SFcompare b a = option_map CompOpp (SFcompare a b).
Proof. by_cases_on_floats. Qed.

Lemma SFcompare_refl (a : float) :
  Np.isnan a = false -> SFcompare a a = Some Eq.
Proof. by_cases_on_floats. Qed.

Lemma SFcompare_Lt_trans (a b c : float) :
  SFcompare a b = Some Lt -> SFcompare b c = Some Lt ->
  SFcompare a c = Some Lt.
Proof. by_cases_on_floats. Qed.

Lemma SFcompare_Eq_l (a b c : float) :
  SFcompare a b = Some Eq -> SFcompare a c = SFcompare b c.
Proof. by_cases_on_floats. Qed.

Lemma SFcompare_Eq_r (a b c : float) :
  SFcompare a b = Some Eq -> SFcompare c a = SFcompare c b.
Proof. by_cases_on_floats. Qed.

(** Two values that compare equal are the same value or two zeros. *)
Lemma SFcompare_Eq_inv (a b : float) :
  SFcompare a b = Some Eq ->
  a = b \/ (exists s t, a = S754_zero s /\ b = S754_zero t).
Proof.
  by_cases_on_floats; try (left; reflexivity);
    try (right; eexists; eexists; split; reflexivity).
Qed.

Lemma SFcompare_total (a b : float) :
  Np.isnan a = false -> Np.isnan b = false ->
  exists c, SFcompare a b = Some c.
Proof. destruct a, b; cbn; intros; try discriminate; eexists; reflexivity. Qed.

End FloatOrder.

(** ** Comparisons of floats, as the code writes them *)

Section Comparisons.

Lemma lt_compare (a b : float) :
  Np.lt a b = true <-> SFcompare a b = Some Lt.
Proof.
  unfold Np.lt, SFltb.
  destruct (SFcompare a b) as [[]|]; split; congruence.
Qed.

Lemma gt_compare (a b : float) :
  Np.gt a b = true <-> SFcompare a b = Some Gt.
Proof.
  unfold Np.gt, SFltb. rewrite (SFcompare_antisym a b).
  destruct (SFcompare a b) as [[]|]; cbn; split; congruence.
Qed.

Lemma le_compare (a b : float) :
  Np.le a b = true <-> SFcompare a b = Some Lt \/ SFcompare a b = Some Eq.
Proof.
  unfold Np.le, SFleb.
  destruct (SFcompare a b) as [[]|]; split; intros; try tauto;
    try discriminate; destruct H; discriminate.
Qed.

Lemma gt_lt (a b : float) : Np.gt a b = Np.lt b a.
Proof. reflexivity. Qed.

Lemma ge_le (a b : float) : Np.ge a b = Np.le b a.
Proof. reflexivity. Qed.

Lemma lt_irrefl (a : float) : Np.lt a a = false.
Proof.
  destruct (Np.lt a a) eqn:E; [|reflexivity].
  apply lt_compare in E.
  destruct (Np.isnan a) eqn:Ha.
  - destruct a; discriminate.
  - rewrite (SFcompare_refl a Ha) in E. discriminate.
Qed.


Lemma lt_le (a b : float) : Np.lt a b = true -> Np.le a b = true.
Proof. rewrite lt_compare, le_compare. tauto. Qed.

Lemma lt_not_le (a b : float) : Np.lt a b = true -> Np.le b a = false.
Proof.
  rewrite lt_compare. intros H.
  unfold Np.le, SFleb. rewrite (SFcompare_antisym a b), H. reflexivity.
Qed.

Lemma le_lt_trans (a b c : float) :
  Np.le a b = true -> Np.lt b c = true -> Np.lt a c = true.
Proof.
  rewrite le_compare, !lt_compare. intros [H|H] Hbc.
  - eapply SFcompare_Lt_trans; eassumption.
  - rewrite (SFcompare_Eq_l a b c H). assumption.
Qed.


Lemma lt_asym (a b : float) : Np.lt a b = true -> Np.lt b a = false.
Proof.
  intros H. destruct (Np.lt b a) eqn:E; [|reflexivity].
  apply lt_le in E. rewrite (lt_not_le a b H) in E. discriminate.
Qed.

Lemma le_refl (a : float) : Np.isnan a = false -> Np.le a a = true.
Proof.
  intros H. apply le_compare. right. apply SFcompare_refl, H.
Qed.

Lemma le_not_nan (a b : float) :
  Np.le a b = true -> Np.isnan a = false /\ Np.isnan b = false.
Proof. destruct a, b; cbn; intros; try discriminate; split; reflexivity. Qed.

Lemma lt_not_nan (a b : float) :
  Np.lt a b = true -> Np.isnan a = false /\ Np.isnan b = false.
Proof. destruct a, b; cbn; intros; try discriminate; split; reflexivity. Qed.

(** On values that are not NaN the order is total. *)
Lemma not_lt_le (a b : float) :
  Np.isnan a = false -> Np.isnan b = false ->
  Np.lt a b = false -> Np.le b a = true.
Proof.
  intros Ha Hb H. destruct (SFcompare_total a b Ha Hb) as [c Hc].
  unfold Np.lt, SFltb in H. unfold Np.le, SFleb.
  rewrite (SFcompare_antisym a b), Hc in *. destruct c; cbn;
    congruence.
Qed.


End Comparisons.

(** ** np.clip *)

Section Clip.

Variables a_min a_max : float.

Lemma clip1_nan : Np.clip1 nan a_min a_max = nan.
Proof. reflexivity. Qed.

Lemma clip1_isnan (x : float) :
  Np.isnan x = true -> Np.isnan (Np.clip1 x a_min a_max) = true.
Proof. destruct x; try discriminate. reflexivity. Qed.


(** Clipping a clipped value changes nothing, whatever the bounds. *)
Lemma clip1_idempotent (x : float) :
  Np.clip1 (Np.clip1 x a_min a_max) a_min a_max = Np.clip1 x a_min a_max.
Proof.
  pose proof (lt_irrefl a_min) as Hlo. pose proof (lt_irrefl a_max) as Hhi.
  unfold Np.clip1, Np.clip_min, Np.clip_max, Np.gt, Np.lt in *.
  repeat match goal with
  | H : ?b = _ |- context [if ?b then _ else _] => rewrite H
  | |- context [if ?b then _ else _] =>
      lazymatch b with
      | context [if _ then _ else _] => fail
      | _ => destruct b eqn:?
      end
  end; try reflexivity; try congruence.
  exfalso.
  match goal with
  | H : SFltb ?a ?b = true |- _ => destruct (lt_not_nan a b H); congruence
  end.
Qed.

(** With ordered bounds a clipped value that is not NaN lies between
    them. *)
Lemma clip1_within (x : float) :
  Np.le a_min a_max = true ->
  Np.isnan (Np.clip1 x a_min a_max) = false ->
  Np.le a_min (Np.clip1 x a_min a_max) = true /\
  Np.le (Np.clip1 x a_min a_max) a_max = true.
Proof.
  intros Hmm. destruct (le_not_nan _ _ Hmm) as [Hlo Hhi].
  unfold Np.clip1, Np.clip_min, Np.clip_max.
  destruct (Np.isnan x) eqn:Hx.
  - rewrite Hx. congruence.
  - destruct (Np.gt x a_min) eqn:Hgt.
    + rewrite Hx. destruct (Np.lt x a_max) eqn:Hlt; intros _.
      * split; [apply lt_le; exact Hgt | apply lt_le; exact Hlt].
      * split; [exact Hmm | apply le_refl; exact Hhi].
    + rewrite Hlo. destruct (Np.lt a_min a_max) eqn:Hlt; intros _.
      * split; [apply le_refl; exact Hlo | exact Hmm].
      * split; [exact Hmm | apply le_refl; exact Hhi].
Qed.

Lemma le_not_lt_eq (a b : float) :
  Np.le a b = true -> Np.lt a b = false -> SFcompare a b = Some Eq.
Proof.
  rewrite le_compare. intros [H|H] Hlt; [|exact H].
  apply lt_compare in H. congruence.
Qed.

Lemma eq_compare (a b : float) :
  Np.eq a b = true <-> SFcompare a b = Some Eq.
Proof.
  unfold Np.eq, SFeqb.
  destruct (SFcompare a b) as [[]|]; split; congruence.
Qed.

Lemma eq_sym_compare (a b : float) :
  SFcompare a b = Some Eq -> SFcompare b a = Some Eq.
Proof. intros H. rewrite (SFcompare_antisym a b), H. reflexivity. Qed.

Lemma clip1_clamps (x : float) :
  Np.le a_min a_max = true ->
  Np.isnan x = false ->
  (Np.lt x a_min = true -> Np.eq (Np.clip1 x a_min a_max) a_min = true) /\
  (Np.gt x a_max = true -> Np.clip1 x a_min a_max = a_max) /\
  (within a_min a_max x -> Np.eq (Np.clip1 x a_min a_max) x = true).
Proof.
  intros Hmm Hx. destruct (le_not_nan _ _ Hmm) as [Hlo Hhi].
  unfold Np.clip1, Np.clip_min, Np.clip_max. rewrite Hx.
  repeat split.
  - intros Hbelow. rewrite gt_lt, (lt_asym _ _ Hbelow), Hlo.
    destruct (Np.lt a_min a_max) eqn:Hlt; apply eq_compare.
    + apply SFcompare_refl, Hlo.
    + apply eq_sym_compare, le_not_lt_eq; assumption.
  - intros Habove. rewrite gt_lt in Habove.
    rewrite gt_lt, (le_lt_trans _ _ _ Hmm Habove), Hx.
    rewrite (lt_asym _ _ Habove). reflexivity.
  - intros [Hge Hle]. rewrite gt_lt.
    destruct (Np.lt a_min x) eqn:Hgt.
    + rewrite Hx. destruct (Np.lt x a_max) eqn:Hlt; apply eq_compare.
      * apply SFcompare_refl, Hx.
      * apply eq_sym_compare, le_not_lt_eq; assumption.
    + pose proof (le_not_lt_eq _ _ Hge Hgt) as Heq.
      rewrite Hlo. destruct (Np.lt a_min a_max) eqn:Hlt; apply eq_compare.
      * exact Heq.
      * pose proof (le_not_lt_eq _ _ Hmm Hlt) as Heq'.
        rewrite <- (SFcompare_Eq_l a_min a_max x Heq'). exact Heq.
Qed.

(** [np.clip] is the clamp: with ordered bounds, a value below the range
    gives the lower bound, a value above it the upper bound, and a value in
    the range itself, each up to the sign of a zero ([==] of floats). *)
Theorem clip1_is_clamp (x : float) :
  Np.le a_min a_max = true ->
  Np.isnan x = false ->
  (Np.lt x a_min = true -> Np.eq (Np.clip1 x a_min a_max) a_min = true) /\
  (Np.gt x a_max = true -> Np.clip1 x a_min a_max = a_max) /\
  (within a_min a_max x -> Np.eq (Np.clip1 x a_min a_max) x = true).
Proof. exact (clip1_clamps x). Qed.

Lemma le_trans (a b c : float) :
  Np.le a b = true -> Np.le b c = true -> Np.le a c = true.
Proof.
  intros Hab Hbc. destruct (Np.lt b c) eqn:Hlt.
  - apply lt_le. apply (le_lt_trans a b c); assumption.
  - pose proof (le_not_lt_eq b c Hbc Hlt) as Heq.
    unfold Np.le, SFleb in *.
    rewrite <- (SFcompare_Eq_r b c a Heq). exact Hab.
Qed.

(** With ordered bounds [np.clip] gives the clamp of the specification on
    every element, a NaN included. *)
Lemma clip1_spec_clamp (x : float) :
  Np.le a_min a_max = true ->
  same_float (Np.clip1 x a_min a_max) (spec_clamp x a_min a_max).
Proof.
  intros Hmm. destruct (le_not_nan _ _ Hmm) as [Hlo Hhi].
  destruct (Np.isnan x) eqn:Hx.
  - left. destruct x; try discriminate.
    unfold spec_clamp. destruct a_min, a_max; reflexivity.
  - destruct (clip1_clamps x Hmm Hx) as (Hbelow & Habove & Hin).
    unfold spec_clamp.
    destruct (SFltb x a_min) eqn:Hlt; [right; apply Hbelow, Hlt|].
    destruct (SFltb a_max x) eqn:Hgt; [left; apply Habove, Hgt|].
    right. apply Hin. split; apply not_lt_le; assumption.
Qed.

(** Inside ordered or unordered bounds, the clamp of the specification is
    the value. *)
Lemma spec_clamp_within (x : float) :
  within a_min a_max x -> spec_clamp x a_min a_max = x.
Proof.
  intros [Hge Hle]. unfold spec_clamp.
  destruct (SFltb x a_min) eqn:Hlt.
  - rewrite (lt_not_le x a_min Hlt) in Hge. discriminate.
  - destruct (SFltb a_max x) eqn:Hgt; [|reflexivity].
    rewrite (lt_not_le a_max x Hgt) in Hle. discriminate.
Qed.

Lemma clip_spec_clamp (a : Scalar) :
  Np.le a_min a_max = true ->
  Forall2 (fun stored y => same_float stored (spec_clamp y a_min a_max))
    (Np.clip a a_min a_max) a.
Proof.
  intros Hmm. unfold Np.clip.
  induction a as [|y rest IH]; cbn; constructor; [|exact IH].
  apply clip1_spec_clamp, Hmm.
Qed.

Lemma clip_idempotent (a : Scalar) :
  Np.clip (Np.clip a a_min a_max) a_min a_max = Np.clip a a_min a_max.
Proof.
  unfold Np.clip. rewrite map_map. apply map_ext.
  intros x. apply clip1_idempotent.
Qed.

End Clip.

Lemma clip1_clamps_examples :
  Np.eq (Np.clip1 Example.minus_half zero Example.one) zero = true /\
  Np.clip1 Example.f1_7 zero Example.one = Example.one /\
  Np.eq (Np.clip1 Example.f0_8 zero Example.one) Example.f0_8 = true.
Proof.
  split; [|split].
  - apply (clip1_is_clamp zero Example.one Example.minus_half); reflexivity.
  - apply (clip1_is_clamp zero Example.one Example.f1_7); reflexivity.
  - apply (clip1_is_clamp zero Example.one Example.f0_8); try reflexivity.
    split; reflexivity.
Defined.

(** ** Arrays *)

Section Arrays.

Lemma take_last_map (f : float -> float) (a : Scalar) (p : float) :
  Np.take_last a = Py.Ok p -> Np.take_last (map f a) = Py.Ok (f p).
Proof.
  induction a as [|x [|y rest] IH]; cbn; intros H.
  - discriminate.
  - injection H as ->. reflexivity.
  - apply IH. exact H.
Qed.

Lemma take_last_nonempty (a : Scalar) :
  a <> [] -> exists p, Np.take_last a = Py.Ok p.
Proof.
  induction a as [|x [|y rest] IH]; intros H.
  - contradiction.
  - exists x. reflexivity.
  - apply IH. discriminate.
Qed.

(** On an array without NaN the loop that locks previous values and the
    assignment of the default change nothing. *)
Lemma lock_previous_loop_no_nan (previous_value : float) (a : Scalar) :
  forallb (fun y => negb (Np.isnan y)) a = true ->
  OutputVariable.lock_previous_loop previous_value a = a.
Proof.
  revert previous_value.
  induction a as [|y rest IH]; cbn; intros pv H; [reflexivity|].
  apply andb_prop in H as [Hy Hrest].
  destruct (Np.isnan y); [discriminate|]. rewrite IH by exact Hrest.
  reflexivity.
Qed.

Lemma fill_nan_no_nan (v : float) (a : Scalar) :
  forallb (fun y => negb (Np.isnan y)) a = true -> Np.fill_nan a v = a.
Proof.
  induction a as [|y rest IH]; cbn; intros H; [reflexivity|].
  apply andb_prop in H as [Hy Hrest].
  destruct (Np.isnan y); [discriminate|].
  unfold Np.fill_nan in IH. rewrite IH by exact Hrest. reflexivity.
Qed.

Lemma finite_not_nan (y : float) :
  Np.isfinite y = true -> Np.isnan y = false.
Proof. destruct y; cbn; congruence. Qed.

End Arrays.

(** ** The passes of defuzzify *)

Section Defuzzify.

Import OutputVariable.

(** A pass on an enabled variable whose defuzzifier returns. *)
Lemma defuzzify_commits (self : t) (d : Defuzzifier.t) (raw : Scalar)
  (p : float) :
  enabled self = true ->
  defuzzifier self = Some d ->
  Defuzzifier.defuzzify d (fuzzy self) (minimum self) (maximum self)
    = Py.Ok raw ->
  Np.take_last (value self) = Py.Ok p ->
  (lock_previous self = true -> raw <> []) ->
  defuzzify self =
    (Py.Ok tt,
     set_value (with_previous_value self p) (finalized self p raw)).
Proof.
  intros He Hd Hraw Hp Hit.
  unfold defuzzify, bind, get_value, get, call, assign, ret. cbn.
  rewrite He. cbn. rewrite Hd, Hraw, Hp. cbn. unfold finalized.
  destruct (lock_previous self); [|reflexivity].
  destruct raw as [|y rest]; [contradiction (Hit eq_refl eq_refl)|].
  reflexivity.
Qed.

(** A pass on an enabled variable with [lock_previous] whose defuzzifier
    returns an array without elements: [np.nditer] raises after the
    assignment of [previous_value], the value held stays. *)
Lemma defuzzify_zero_sized (self : t) (d : Defuzzifier.t) (p : float) :
  enabled self = true ->
  defuzzifier self = Some d ->
  Defuzzifier.defuzzify d (fuzzy self) (minimum self) (maximum self)
    = Py.Ok [] ->
  Np.take_last (value self) = Py.Ok p ->
  lock_previous self = true ->
  defuzzify self =
    (Py.Raise
       (Py.ValueError "Iteration of zero-sized operands is not enabled"),
     with_previous_value self p).
Proof.
  intros He Hd Hraw Hp Hlp.
  unfold defuzzify, bind, get_value, get, call, assign, ret. cbn.
  rewrite He. cbn. rewrite Hd, Hraw, Hp. cbn. rewrite Hlp. reflexivity.
Qed.

Lemma scalar_iterable (b : bool) (y : float) : b = true -> scalar y <> [].
Proof. discriminate. Qed.

Lemma value_set_value (self : t) (x : Scalar) :
  value (set_value self x) =
  locked_value (lock_range self) (minimum self) (maximum self) x.
Proof. reflexivity. Qed.

(** What the setter stored, the setter stores again unchanged. *)
Lemma stored_by_setter_fixed (self : t) :
  stored_by_setter self ->
  locked_value (lock_range self) (minimum self) (maximum self) (value self)
    = value self.
Proof.
  intros [x Hx]. rewrite Hx. unfold locked_value.
  destruct (lock_range self); [apply clip_idempotent | reflexivity].
Qed.

Lemma stored_by_setter_last (self : t) (p : float) :
  stored_by_setter self ->
  Np.take_last (value self) = Py.Ok p ->
  locked_value (lock_range self) (minimum self) (maximum self) [p] = [p].
Proof.
  intros Hs Hp. pose proof (stored_by_setter_fixed self Hs) as Hfix.
  unfold locked_value in *. destruct (lock_range self); [|reflexivity].
  pose proof (take_last_map
                (fun x => Np.clip1 x (minimum self) (maximum self))
                _ _ Hp) as Hq.
  unfold Np.clip in Hfix. rewrite Hfix, Hp in Hq.
  injection Hq as Hq. cbn. rewrite <- Hq. reflexivity.
Qed.

Lemma set_value_stored_by_setter (self : t) (x : Scalar) :
  stored_by_setter (set_value self x).
Proof. exists x. reflexivity. Qed.

End Defuzzify.

(** ** OutputVariable.defuzzify and OutputVariable.clear *)

Section OutputVariableClaims.

Import OutputVariable.

Lemma eq_refl_not_nan (a : float) : Np.isnan a = false -> SFeqb a a = true.
Proof. intros H. unfold SFeqb. rewrite (SFcompare_refl a H). reflexivity. Qed.

Lemma same_float_eq (a b : float) :
  Np.isnan b = false -> same_float a b -> SFeqb a b = true.
Proof.
  intros Hb [-> | H]; [apply eq_refl_not_nan, Hb | exact H].
Qed.

Lemma spec_clamp_not_nan (x lo hi : float) :
  Np.isnan x = false -> Np.isnan lo = false -> Np.isnan hi = false ->
  Np.isnan (spec_clamp x lo hi) = false.
Proof.
  intros Hx Hlo Hhi. unfold spec_clamp.
  destruct (SFltb x lo); [exact Hlo|]. destruct (SFltb hi x); assumption.
Qed.

(** C1, as the code has it.  On an enabled variable with [lock_previous]
    whose value held ends in a finite [p], a pass whose defuzzifier yields
    NaN stores one value [y], whatever the default is: [y] is [p] without
    [lock_range]; under [lock_range] it equals [p] when [p] lies in the
    range, and it is the clamp of [p] to an ordered range in general.  On a
    pass whose defuzzifier yields a finite [r], under [lock_range] and an
    ordered range, the value stored equals the clamp of [r] to the range,
    whatever [lock_previous], the previous value and the default are.  The
    clamp is [spec_clamp], equality is [==] of floats. *)
Theorem C1_lock_previous_then_lock_range
  (self : t) (d : Defuzzifier.t) (p : float)
  (next : t) (d' : Defuzzifier.t) (r : float) :
  enabled self = true ->
  defuzzifier self = Some d ->
  lock_previous self = true ->
  Np.take_last (value self) = Py.Ok p ->
  Np.isfinite p = true ->
  Defuzzifier.defuzzify d (fuzzy self) (minimum self) (maximum self)
    = Py.Ok (scalar nan) ->
  enabled next = true ->
  defuzzifier next = Some d' ->
  lock_range next = true ->
  SFleb (minimum next) (maximum next) = true ->
  value next <> [] ->
  Defuzzifier.defuzzify d' (fuzzy next) (minimum next) (maximum next)
    = Py.Ok (scalar r) ->
  Np.isfinite r = true ->
  (fst (defuzzify self) = Py.Ok tt /\
   exists y,
     value (snd (defuzzify self)) = [y] /\
     (lock_range self = false -> y = p) /\
     (lock_range self = true -> within (minimum self) (maximum self) p ->
      SFeqb y p = true) /\
     (lock_range self = true ->
      SFleb (minimum self) (maximum self) = true ->
      SFeqb y (spec_clamp p (minimum self) (maximum self)) = true)) /\
  (fst (defuzzify next) = Py.Ok tt /\
   exists y,
     value (snd (defuzzify next)) = [y] /\
     SFeqb y (spec_clamp r (minimum next) (maximum next)) = true).
Proof.
  intros He Hd Hlp Hp Hfin Hraw He' Hd' Hlr Hmm Hne Hraw' Hfin'.
  pose proof (finite_not_nan p Hfin) as Hpn.
  pose proof (finite_not_nan r Hfin') as Hrn.
  split.
  - rewrite (defuzzify_commits self d _ p He Hd Hraw Hp
               (scalar_iterable _ nan)).
    cbn [fst snd]. split; [reflexivity|]. rewrite value_set_value.
    assert (Hfinal : finalized self p (scalar nan) = [p]).
    { unfold finalized. rewrite Hlp.
      cbn [scalar OutputVariable.lock_previous_loop Np.isnan nan].
      destruct (negb (Np.isnan (default_value self))); [|reflexivity].
      cbn. rewrite Hpn. reflexivity. }
    rewrite Hfinal.
    cbn [with_previous_value lock_range minimum maximum fuzzy].
    unfold locked_value. destruct (lock_range self).
    + exists (Np.clip1 p (minimum self) (maximum self)).
      split; [reflexivity|]. split; [discriminate|]. split.
      * intros _ Hin.
        pose proof (le_trans _ _ _ (proj1 Hin) (proj2 Hin)) as Hmm0.
        apply (clip1_clamps _ _ p Hmm0 Hpn). exact Hin.
      * intros _ Hmm0. destruct (le_not_nan _ _ Hmm0) as [Hlo Hhi].
        apply same_float_eq;
          [apply spec_clamp_not_nan; assumption
          | apply clip1_spec_clamp, Hmm0].
    + exists p. split; [reflexivity|]. split; [reflexivity|].
      split; discriminate.
  - destruct (take_last_nonempty (value next) Hne) as [q Hq].
    rewrite (defuzzify_commits next d' _ q He' Hd' Hraw' Hq
               (scalar_iterable _ r)).
    cbn [fst snd]. split; [reflexivity|]. rewrite value_set_value.
    assert (Hclean : forallb (fun y => negb (Np.isnan y)) (scalar r) = true)
      by (cbn; rewrite Hrn; reflexivity).
    assert (Hfinal : finalized next q (scalar r) = [r]).
    { unfold finalized.
      rewrite (lock_previous_loop_no_nan q _ Hclean).
      destruct (lock_previous next), (negb (Np.isnan (default_value next)));
        rewrite ?(fill_nan_no_nan _ _ Hclean); reflexivity. }
    rewrite Hfinal.
    cbn [with_previous_value lock_range minimum maximum fuzzy].
    unfold locked_value. rewrite Hlr.
    exists (Np.clip1 r (minimum next) (maximum next)).
    split; [reflexivity|]. destruct (le_not_nan _ _ Hmm) as [Hlo Hhi].
    apply same_float_eq;
      [apply spec_clamp_not_nan; assumption | apply clip1_spec_clamp, Hmm].
Qed.

(** Scenario "lock precedence": 0.8 held, NaN yields 0.8; then 1.7 yields
    1.0. *)
Lemma C1_lock_precedence_scenario :
  (fst (defuzzify Example.steer) = Py.Ok tt /\
   exists y,
     value (snd (defuzzify Example.steer)) = [y] /\
     (lock_range Example.steer = false -> y = Example.f0_8) /\
     (lock_range Example.steer = true ->
      within (minimum Example.steer) (maximum Example.steer) Example.f0_8 ->
      SFeqb y Example.f0_8 = true) /\
     (lock_range Example.steer = true ->
      SFleb (minimum Example.steer) (maximum Example.steer) = true ->
      SFeqb y
        (spec_clamp Example.f0_8 (minimum Example.steer)
           (maximum Example.steer)) = true)) /\
  (fst (defuzzify Example.steer_next) = Py.Ok tt /\
   exists y,
     value (snd (defuzzify Example.steer_next)) = [y] /\
     SFeqb y
       (spec_clamp Example.f1_7 (minimum Example.steer_next)
          (maximum Example.steer_next)) = true).
Proof.
  apply (C1_lock_previous_then_lock_range
           Example.steer (Example.two_valued nan Example.f1_7) Example.f0_8
           Example.steer_next (Example.two_valued nan Example.f1_7)
           Example.f1_7);
    try reflexivity.
  discriminate.
Defined.

(** The numbers of the scenario: the clamp of 1.7 to [0, 1] is 1.0, and
    the values stored are 0.8 and 1.0. *)
Example lock_precedence_numbers :
  spec_clamp Example.f1_7 zero Example.one = Example.one /\
  value (snd (defuzzify Example.steer)) = scalar Example.f0_8 /\
  value (snd (defuzzify Example.steer_next)) = scalar Example.one.
Proof. repeat split. Qed.

(** C1, as the claim has it, fails: the variable holds the finite 0.8 under
    [lock_previous]; its range was narrowed to [0, 0.5]; the defuzzifier
    yields NaN, and the pass stores 0.5, not the value held. *)
Lemma C1_narrowed_range_stores_bound :
  lock_previous Example.narrowed = true /\
  value Example.narrowed = scalar Example.f0_8 /\
  Np.isfinite Example.f0_8 = true /\
  Defuzzifier.defuzzify (Example.two_valued nan Example.f1_7)
    (fuzzy Example.narrowed) (minimum Example.narrowed)
    (maximum Example.narrowed) = Py.Ok (scalar nan) /\
  fst (defuzzify Example.narrowed) = Py.Ok tt /\
  value (snd (defuzzify Example.narrowed)) = scalar Example.half /\
  value (snd (defuzzify Example.narrowed)) <> value Example.narrowed.
Proof. repeat split. cbn. discriminate. Qed.

(** An infinite raw result has no NaN in it: the pass stores it as the
    setter takes it, whatever [lock_previous], the value held and the
    default are. *)
Lemma infinite_result_not_replaced (self : t) (d : Defuzzifier.t)
  (sign : bool) :
  enabled self = true ->
  defuzzifier self = Some d ->
  value self <> [] ->
  Defuzzifier.defuzzify d (fuzzy self) (minimum self) (maximum self)
    = Py.Ok (scalar (S754_infinity sign)) ->
  value (snd (defuzzify self)) =
  locked_value (lock_range self) (minimum self) (maximum self)
    (scalar (S754_infinity sign)).
Proof.
  intros He Hd Hne Hraw.
  destruct (take_last_nonempty (value self) Hne) as [q Hq].
  rewrite (defuzzify_commits self d _ q He Hd Hraw Hq
             (scalar_iterable _ _)).
  cbn [snd]. rewrite value_set_value. unfold finalized.
  destruct (lock_previous self), (negb (Np.isnan (default_value self)));
    reflexivity.
Qed.

(** C2. The code at the failing input: with [lock_previous], the finite
    value 0.8 held and the default 0.5, a raw result [+inf] is stored as
    it is, replaced neither by 0.8 nor by 0.5. *)
Theorem C2_infinite_result_is_stored :
  enabled Example.overflowing = true /\
  lock_previous Example.overflowing = true /\
  lock_range Example.overflowing = false /\
  value Example.overflowing = scalar Example.f0_8 /\
  default_value Example.overflowing = Example.half /\
  fst (defuzzify Example.overflowing) = Py.Ok tt /\
  value (snd (defuzzify Example.overflowing)) = scalar inf.
Proof. repeat split. Qed.

(** C3, as the code has it.  A pass on an enabled variable whose
    defuzzifier returns sets [previous_value] to the last element of the
    value held before the call, be it finite, infinite or NaN; the call
    returns unless, with [lock_previous], the result of the defuzzifier
    has no element, and [previous_value] is set then too. *)
Theorem C3_previous_value_is_last_held (self : t) (d : Defuzzifier.t)
  (raw : Scalar) (p : float) :
  enabled self = true ->
  defuzzifier self = Some d ->
  Defuzzifier.defuzzify d (fuzzy self) (minimum self) (maximum self)
    = Py.Ok raw ->
  Np.take_last (value self) = Py.Ok p ->
  previous_value (snd (defuzzify self)) = p /\
  ((lock_previous self = true -> raw <> []) ->
   fst (defuzzify self) = Py.Ok tt).
Proof.
  intros He Hd Hraw Hp.
  destruct (lock_previous self) eqn:Hlp; [destruct raw as [|y rest]|].
  - rewrite (defuzzify_zero_sized self d p He Hd Hraw Hp Hlp).
    split; [reflexivity|]. intros Hit. contradiction (Hit eq_refl eq_refl).
  - rewrite (defuzzify_commits self d _ p He Hd Hraw Hp);
      [split; reflexivity | discriminate].
  - rewrite (defuzzify_commits self d _ p He Hd Hraw Hp);
      [split; reflexivity | rewrite Hlp; discriminate].
Qed.

Lemma C3_previous_value_after_steer :
  previous_value (snd (defuzzify Example.steer)) = Example.f0_8 /\
  ((lock_previous Example.steer = true -> scalar nan <> []) ->
   fst (defuzzify Example.steer) = Py.Ok tt).
Proof.
  apply (C3_previous_value_is_last_held
           Example.steer (Example.two_valued nan Example.f1_7)
           (scalar nan) Example.f0_8);
    reflexivity.
Defined.

(** C3, as the claim has it, fails: the variable holds NaN and remembers
    0.8; after the pass it remembers NaN. *)
Lemma C3_previous_value_overwritten_by_nan :
  value Example.idle = scalar nan /\
  previous_value Example.idle = Example.f0_8 /\
  fst (defuzzify Example.idle) = Py.Ok tt /\
  previous_value (snd (defuzzify Example.idle)) = nan /\
  previous_value (snd (defuzzify Example.idle))
    <> previous_value Example.idle.
Proof. repeat split. cbn. discriminate. Qed.

Lemma value_after_clear (self : t) : value (snd (clear self)) = scalar nan.
Proof.
  unfold clear, bind, assign. cbn. unfold locked_value.
  destruct (lock_range self); reflexivity.
Qed.

(** C4. [clear()] returns, and leaves no activated term, [previous_value]
    NaN and [value] NaN, on every variable. *)
Theorem C4_clear_resets (self : t) :
  fst (clear self) = Py.Ok tt /\
  Aggregated.terms (fuzzy (snd (clear self))) = [] /\
  previous_value (snd (clear self)) = nan /\
  value (snd (clear self)) = scalar nan.
Proof.
  repeat split. apply value_after_clear.
Qed.

(** The guard on [self.defuzzifier]. *)
Lemma defuzzify_missing_defuzzifier (self : t) :
  enabled self = true ->
  defuzzifier self = None ->
  defuzzify self =
    (Py.Raise
       (Py.ValueError
          (String.append "expected a defuzzifier in output variable '"
             (String.append (name self) "', but found None"))),
     self).
Proof.
  intros He Hd. unfold defuzzify, bind, get, raise. cbn.
  rewrite He. cbn. rewrite Hd. reflexivity.
Qed.

(** C7. On an enabled variable without defuzzifier, [defuzzify()] raises
    a [ValueError] and the object is as it was before the call: [value],
    [previous_value] and the fuzzy set are those of before. *)
Theorem C7_defuzzify_without_defuzzifier (self : t) :
  enabled self = true ->
  defuzzifier self = None ->
  exists msg,
    fst (defuzzify self) = Py.Raise (Py.ValueError msg) /\
    snd (defuzzify self) = self /\
    value (snd (defuzzify self)) = value self /\
    previous_value (snd (defuzzify self)) = previous_value self /\
    fuzzy (snd (defuzzify self)) = fuzzy self.
Proof.
  intros He Hd. rewrite (defuzzify_missing_defuzzifier self He Hd).
  eexists. repeat split.
Qed.

Lemma C7_bare_variable_raises :
  exists msg,
    fst (defuzzify Example.bare) = Py.Raise (Py.ValueError msg) /\
    snd (defuzzify Example.bare) = Example.bare /\
    value (snd (defuzzify Example.bare)) = value Example.bare /\
    previous_value (snd (defuzzify Example.bare))
      = previous_value Example.bare /\
    fuzzy (snd (defuzzify Example.bare)) = fuzzy Example.bare.
Proof.
  apply (C7_defuzzify_without_defuzzifier Example.bare); reflexivity.
Defined.

(** C9. On a disabled variable [defuzzify()] returns and the object is as
    it was before the call, with or without a defuzzifier. *)
Theorem C9_defuzzify_disabled (self : t) :
  enabled self = false ->
  defuzzify self = (Py.Ok tt, self).
Proof.
  intros He. unfold defuzzify, bind, get, ret. cbn.
  rewrite He. reflexivity.
Qed.

Lemma C9_disabled_variable_untouched :
  defuzzifier Example.disabled = None /\
  defuzzify Example.disabled = (Py.Ok tt, Example.disabled).
Proof.
  split; [reflexivity|].
  apply (C9_defuzzify_disabled Example.disabled). reflexivity.
Defined.

(** The range is shared: the variable reads the fields of its fuzzy set,
    so after a write to [minimum] or [maximum] both agree. *)
Lemma range_is_shared (self : t) (x : float) :
  (Aggregated.minimum (fuzzy (set_minimum self x)) = x /\
   minimum (set_minimum self x) = x) /\
  (Aggregated.maximum (fuzzy (set_maximum self x)) = x /\
   maximum (set_maximum self x) = x).
Proof. repeat split. Qed.

(** The constructor gives the fuzzy set the name of the variable; a later
    write to [name] leaves the name of the fuzzy set as it was. *)
Lemma name_is_copied_once (name description : string) (enabled : bool)
  (lo hi : float) (lock_range lock_previous : bool) (default_value : float)
  (aggregation : option SNorm) (defuzzifier : option Defuzzifier.t)
  (terms : list Term.t) (renamed : string) :
  let self := __init__ name description enabled lo hi lock_range
                lock_previous default_value aggregation defuzzifier terms in
  Aggregated.name (fuzzy self) = OutputVariable.name self /\
  Aggregated.name (fuzzy (set_name self renamed)) = name /\
  OutputVariable.name (set_name self renamed) = renamed.
Proof. repeat split. Qed.

(** C8. The code at the failing input: the variable constructed as
    [steer] and renamed [angle] has a fuzzy set still named [steer]. *)
Theorem C8_name_not_mirrored :
  OutputVariable.name (set_name Example.bare "angle") = "angle"%string /\
  Aggregated.name (fuzzy (set_name Example.bare "angle")) = "steer"%string.
Proof. split; reflexivity. Qed.

End OutputVariableClaims.

(** ** The setter of value and the range *)

Section ValueRange.

Import OutputVariable.

Lemma clip_within (lo hi : float) (a : Scalar) :
  Np.le lo hi = true ->
  Forall (fun y => Np.isfinite y = true -> within lo hi y)
    (Np.clip a lo hi).
Proof.
  intros Hmm. unfold Np.clip.
  induction a as [|x rest IH]; cbn; constructor; [|exact IH].
  intros Hfin. apply clip1_within; [exact Hmm|].
  apply finite_not_nan, Hfin.
Qed.

(** A call of [defuzzify] either leaves the object as it was, and then
    the variable is disabled or the call raises; or it raises on a result
    without elements after the assignment of [previous_value]; or it
    commits a pass. *)
Lemma defuzzify_cases (self : t) :
  (exists r, defuzzify self = (r, self) /\
             (enabled self = false \/ r <> Py.Ok tt)) \/
  (exists d p,
      enabled self = true /\ defuzzifier self = Some d /\
      Defuzzifier.defuzzify d (fuzzy self) (minimum self) (maximum self)
        = Py.Ok [] /\
      Np.take_last (value self) = Py.Ok p /\
      lock_previous self = true) \/
  (exists d raw p,
      enabled self = true /\ defuzzifier self = Some d /\
      Defuzzifier.defuzzify d (fuzzy self) (minimum self) (maximum self)
        = Py.Ok raw /\
      Np.take_last (value self) = Py.Ok p /\
      (lock_previous self = true -> raw <> [])).
Proof.
  destruct (enabled self) eqn:He.
  - destruct (defuzzifier self) as [d|] eqn:Hd.
    + destruct (Defuzzifier.defuzzify d (fuzzy self) (minimum self)
                  (maximum self)) as [raw|e] eqn:Hraw.
      * destruct (Np.take_last (value self)) as [p|e] eqn:Hp.
        -- right. destruct (lock_previous self) eqn:Hlp.
           ++ destruct raw as [|y rest].
              ** left. exists d, p. repeat split; assumption.
              ** right. exists d, (y :: rest), p.
                 repeat split; try assumption. discriminate.
           ++ right. exists d, raw, p. repeat split; try assumption.
              discriminate.
        -- left. exists (Py.Raise e). split; [|right; discriminate].
           unfold defuzzify, bind, get_value, get, call. cbn.
           rewrite He. cbn. rewrite Hd, Hraw, Hp. reflexivity.
      * left. exists (Py.Raise e). split; [|right; discriminate].
        unfold defuzzify, bind, get, call. cbn.
        rewrite He. cbn. rewrite Hd, Hraw. reflexivity.
    + left. eexists. split;
        [apply (defuzzify_missing_defuzzifier self He Hd)
        | right; discriminate].
  - left. exists (Py.Ok tt). split; [|left; reflexivity].
    unfold defuzzify, bind, get, ret. cbn. rewrite He. reflexivity.
Qed.

(** C5, as the code has it.  The setter of [value] stores the array itself
    without [lock_range]; with [lock_range] and an ordered range,
    [minimum <= maximum], it stores, element by element, the clamp of the
    specification ([spec_clamp], up to the sign of a zero; NaN stays NaN),
    on a [Variable] and on an [OutputVariable].  Hence, under [lock_range]
    and an ordered range, every finite element of the value an
    [OutputVariable] holds after a call of [defuzzify()] that commits a
    pass (the variable is enabled and the call returns) lies in the
    range. *)
Theorem C5_setter_clamps_to_range (v : Variable_.t) (self : t)
  (x : Scalar) :
  (Variable_.lock_range v = false ->
   Variable_.value (Variable_.set_value v x) = x) /\
  (Variable_.lock_range v = true ->
   SFleb (Variable_.minimum v) (Variable_.maximum v) = true ->
   Forall2
     (fun stored y =>
        same_float stored
          (spec_clamp y (Variable_.minimum v) (Variable_.maximum v)))
     (Variable_.value (Variable_.set_value v x)) x) /\
  (lock_range self = false -> value (set_value self x) = x) /\
  (lock_range self = true ->
   SFleb (minimum self) (maximum self) = true ->
   Forall2
     (fun stored y =>
        same_float stored (spec_clamp y (minimum self) (maximum self)))
     (value (set_value self x)) x) /\
  (lock_range self = true ->
   SFleb (minimum self) (maximum self) = true ->
   enabled self = true ->
   fst (defuzzify self) = Py.Ok tt ->
   Forall
     (fun y =>
        Np.isfinite y = true ->
        SFleb (minimum self) y = true /\ SFleb y (maximum self) = true)
     (value (snd (defuzzify self)))).
Proof.
  split; [|split; [|split; [|split]]].
  - intros Hlr. unfold Variable_.set_value, Variable_.value, locked_value.
    cbn. rewrite Hlr. reflexivity.
  - intros Hlr Hmm. unfold Variable_.set_value, Variable_.value, locked_value.
    cbn [Variable_._value]. rewrite Hlr. apply clip_spec_clamp, Hmm.
  - intros Hlr. rewrite value_set_value. unfold locked_value.
    rewrite Hlr. reflexivity.
  - intros Hlr Hmm. rewrite value_set_value. unfold locked_value.
    rewrite Hlr. apply clip_spec_clamp, Hmm.
  - intros Hlr Hmm He Hok.
    destruct (defuzzify_cases self)
      as [(r & Hr & Hwhy)
         | [(d & p & _ & Hd & Hraw & Hp & Hlp)
           | (d & raw & p & _ & Hd & Hraw & Hp & Hit)]].
    + rewrite Hr in Hok. cbn in Hok. destruct Hwhy; congruence.
    + rewrite (defuzzify_zero_sized self d p He Hd Hraw Hp Hlp) in Hok.
      discriminate.
    + rewrite (defuzzify_commits self d raw p He Hd Hraw Hp Hit). cbn [snd].
      rewrite value_set_value.
      cbn [with_previous_value lock_range minimum maximum fuzzy].
      unfold locked_value. rewrite Hlr. apply clip_within, Hmm.
Qed.

Lemma C5_steer_stays_in_range :
  Forall2
    (fun stored y => same_float stored (spec_clamp y zero Example.one))
    (value (set_value Example.steer [Example.f1_7; Example.minus_half; nan]))
    [Example.f1_7; Example.minus_half; nan] /\
  Forall
    (fun y =>
       Np.isfinite y = true ->
       SFleb zero y = true /\ SFleb y Example.one = true)
    (value (snd (defuzzify Example.steer_next))).
Proof.
  destruct (C5_setter_clamps_to_range
              Example.obstacle Example.steer_next
              [Example.f1_7; Example.minus_half; nan])
    as (_ & _ & _ & Hset & Hrange).
  split.
  - apply Hset; reflexivity.
  - apply Hrange; reflexivity.
Defined.

(** The numbers of the example: 1.7, -0.5 and NaN are stored as 1.0, 0.0
    and NaN. *)
Example setter_numbers :
  value (set_value Example.steer [Example.f1_7; Example.minus_half; nan])
    = [Example.one; zero; nan] /\
  map (fun y => spec_clamp y zero Example.one)
    [Example.f1_7; Example.minus_half; nan]
    = [Example.one; zero; nan].
Proof. split; reflexivity. Qed.

(** C5, as the claim has it, fails.  On a variable of the reversed range
    [1, 0] with [lock_range], a pass whose defuzzifier yields 0.5 stores
    the finite 0.0, below the minimum 1.0.  And [defuzzify()] on a disabled
    variable with [lock_range] that holds 5.0 leaves the finite 5.0, above
    the maximum 1.0. *)
Lemma C5_finite_value_outside_range :
  (lock_range Example.reversed = true /\
   fst (defuzzify Example.reversed) = Py.Ok tt /\
   value (snd (defuzzify Example.reversed)) = scalar zero /\
   Np.isfinite zero = true /\
   SFleb (minimum (snd (defuzzify Example.reversed))) zero = false) /\
  (lock_range Example.late_locked = true /\
   SFleb (minimum Example.late_locked) (maximum Example.late_locked) = true /\
   fst (defuzzify Example.late_locked) = Py.Ok tt /\
   value (snd (defuzzify Example.late_locked)) = scalar Example.five /\
   Np.isfinite Example.five = true /\
   SFleb Example.five (maximum (snd (defuzzify Example.late_locked)))
     = false).
Proof. repeat split. Qed.

End ValueRange.

(** ** Variable.fuzzify and Variable.highest_membership *)

Section VariableClaims.

Lemma evaluation_errors_only_cons (x : float) (term : Term.t)
  (rest : list Term.t) :
  evaluation_errors_only x (term :: rest) ->
  Py.suppress_ValueError nan (Term.membership term x)
    = Py.Ok (degree_at x term) /\
  evaluation_errors_only x rest.
Proof.
  intros H. split.
  - unfold degree_at, Py.suppress_ValueError.
    destruct (Term.membership term x) as [y|e] eqn:Hm; [reflexivity|].
    rewrite (H term e (or_introl eq_refl) Hm). reflexivity.
  - intros u e Hin. apply H. right. exact Hin.
Qed.

Section Fuzzify.

Variable Op_str : float -> string.
Variable x : float.




End Fuzzify.


Section HighestMembership.

Variable x : float.



End HighestMembership.


End VariableClaims.

(** ** Further properties of the passes *)

Section Passes.

Import OutputVariable.

(** After [clear()], a pass whose defuzzifier yields NaN on the emptied
    fuzzy set stores the default, clipped under [lock_range]; a NaN default
    leaves NaN.  The previous value plays no part, [clear()] reset it. *)
Theorem clear_then_defuzzify_gives_default (self : t) (d : Defuzzifier.t) :
  enabled self = true ->
  defuzzifier self = Some d ->
  Defuzzifier.defuzzify d (Aggregated.clear (fuzzy self)) (minimum self)
    (maximum self) = Py.Ok (scalar nan) ->
  fst (defuzzify (snd (clear self))) = Py.Ok tt /\
  value (snd (defuzzify (snd (clear self)))) =
    locked_value (lock_range self) (minimum self) (maximum self)
      (scalar (default_value self)).
Proof.
  intros He Hd Hraw.
  assert (Hlast : Np.take_last (value (snd (clear self))) = Py.Ok nan).
  { rewrite (value_after_clear self). reflexivity. }
  rewrite (defuzzify_commits (snd (clear self)) d (scalar nan) nan
             He Hd Hraw Hlast (scalar_iterable _ nan)).
  split; [reflexivity|]. cbn [snd]. rewrite value_set_value.
  unfold finalized. cbn [clear snd lock_previous default_value].
  change (lock_previous (snd (clear self))) with (lock_previous self).
  change (default_value (snd (clear self))) with (default_value self).
  change (lock_range (with_previous_value (snd (clear self)) nan))
    with (lock_range self).
  change (minimum (with_previous_value (snd (clear self)) nan))
    with (minimum self).
  change (maximum (with_previous_value (snd (clear self)) nan))
    with (maximum self).
  destruct (lock_previous self); cbn [lock_previous_loop scalar Np.isnan nan];
    destruct (default_value self) eqn:Hdv; cbn; try reflexivity.
Qed.

Lemma clear_then_defuzzify_steer :
  fst (defuzzify (snd (clear Example.steer))) = Py.Ok tt /\
  value (snd (defuzzify (snd (clear Example.steer)))) = scalar Example.half.
Proof.
  apply (clear_then_defuzzify_gives_default
           Example.steer (Example.two_valued nan Example.f1_7));
    reflexivity.
Defined.

Lemma last_cons_default (x d : float) (l : Scalar) :
  last (x :: l) d = last l x.
Proof.
  revert x d. induction l as [|z l IH]; intros x d; [reflexivity|].
  change (last (x :: z :: l) d) with (last (z :: l) d).
  rewrite (IH z d). symmetry. apply IH.
Qed.

Lemma lock_previous_loop_nth (a : Scalar) :
  forall (previous_value : float) (i : nat) (y : float),
    nth_error a i = Some y ->
    nth_error (lock_previous_loop previous_value a) i =
    Some (if Np.isnan y
          then nearest_valid previous_value (firstn i a)
          else y).
Proof.
  induction a as [|y0 rest IH]; intros pv i y Hy.
  - destruct i; discriminate.
  - destruct i as [|i]; cbn in Hy.
    + injection Hy as ->. cbn. destruct (Np.isnan y); reflexivity.
    + cbn [lock_previous_loop firstn]. unfold nearest_valid. cbn [filter].
      destruct (Np.isnan y0) eqn:Hy0; cbn [negb nth_error].
      * rewrite (IH pv i y Hy). reflexivity.
      * rewrite (IH y0 i y Hy). rewrite last_cons_default. reflexivity.
Qed.

(** On an array of at least one element, the loop that locks previous
    values keeps the length and every element that is not NaN, and gives
    each NaN element the nearest element before it that is not NaN, or the
    previous value when there is none; so it leaves no NaN when it starts
    from a previous value that is not NaN. *)
Theorem lock_previous_loop_fills (previous_value : float) (a : Scalar) :
  a <> [] ->
  List.length (lock_previous_loop previous_value a) = List.length a /\
  (forall i y,
      nth_error a i = Some y ->
      nth_error (lock_previous_loop previous_value a) i =
      Some (if Np.isnan y
            then nearest_valid previous_value (firstn i a)
            else y)) /\
  (Np.isnan previous_value = false ->
   Forall (fun y => Np.isnan y = false)
     (lock_previous_loop previous_value a)).
Proof.
  intros _. split; [|split].
  - revert previous_value.
    induction a as [|y rest IH]; intros pv; cbn; [reflexivity|].
    destruct (Np.isnan y); cbn; rewrite IH; reflexivity.
  - intros i y Hy. apply lock_previous_loop_nth, Hy.
  - revert previous_value.
    induction a as [|y rest IH]; intros pv Hpv; cbn; [constructor|].
    destruct (Np.isnan y) eqn:Hy; constructor; try assumption;
      apply IH; assumption.
Qed.

Example lock_previous_loop_carries_forward :
  lock_previous_loop Example.f0_8 [nan; Example.half; nan; nan; Example.one]
    = [Example.f0_8; Example.half; Example.half; Example.half; Example.one].
Proof. reflexivity. Qed.

Lemma lock_previous_loop_on_gaps :
  List.length
    (lock_previous_loop Example.f0_8
       [nan; Example.half; nan; nan; Example.one]) = 5 /\
  (forall i y,
      nth_error [nan; Example.half; nan; nan; Example.one] i = Some y ->
      nth_error
        (lock_previous_loop Example.f0_8
           [nan; Example.half; nan; nan; Example.one]) i =
      Some (if Np.isnan y
            then nearest_valid Example.f0_8
                   (firstn i [nan; Example.half; nan; nan; Example.one])
            else y)) /\
  (Np.isnan Example.f0_8 = false ->
   Forall (fun y => Np.isnan y = false)
     (lock_previous_loop Example.f0_8
        [nan; Example.half; nan; nan; Example.one])).
Proof.
  apply (lock_previous_loop_fills Example.f0_8
           [nan; Example.half; nan; nan; Example.one]).
  discriminate.
Defined.

(** Assigning to [value] what the variable holds after an assignment
    changes nothing: the setter is idempotent, whatever the range. *)
Theorem set_value_idempotent (self : t) (x : Scalar) :
  set_value (set_value self x) (value (set_value self x)) = set_value self x.
Proof.
  destruct self as [fz n ds en lr ts v df lp dv pv].
  unfold set_value, with__value, value, locked_value, minimum, maximum.
  cbn [fuzzy name description enabled lock_range terms _value defuzzifier
       lock_previous default_value previous_value].
  destruct lr; [rewrite clip_idempotent|]; reflexivity.
Qed.

End Passes.

(** ** Variable.term *)

Section TermLookup.

Variable repr_names : list string -> string.

Lemma term_loop_found (terms : list Term.t) (name : string) (t : Term.t) :
  Variable_.term_loop terms name = Some t <->
  exists before after,
    terms = before ++ t :: after /\ Term.name t = name /\
    forall u, In u before -> Term.name u <> name.
Proof.
  induction terms as [|term rest IH]; cbn.
  - split; [discriminate|].
    intros (before & after & H & _). destruct before; discriminate.
  - destruct (String.eqb_spec (Term.name term) name) as [Heq|Hne].
    + split.
      * intros [= <-]. exists [], rest. repeat split; [exact Heq|].
        intros u [].
      * intros (before & after & Hsplit & Hname & Hfirst).
        destruct before as [|b before]; cbn in Hsplit.
        -- injection Hsplit as -> _. reflexivity.
        -- injection Hsplit as -> _. exfalso.
           apply (Hfirst b); [left; reflexivity | exact Heq].
    + rewrite IH. split.
      * intros (before & after & -> & Hname & Hfirst).
        exists (term :: before), after. repeat split; [exact Hname|].
        intros u [<-|Hin]; [exact Hne | apply Hfirst, Hin].
      * intros (before & after & Hsplit & Hname & Hfirst).
        destruct before as [|b before]; cbn in Hsplit.
        -- injection Hsplit as -> _. contradiction.
        -- injection Hsplit as _ ->. exists before, after.
           repeat split; [exact Hname|].
           intros u Hin. apply Hfirst. right. exact Hin.
Qed.

Lemma term_loop_none (terms : list Term.t) (name : string) :
  Variable_.term_loop terms name = None <->
  forall u, In u terms -> Term.name u <> name.
Proof.
  induction terms as [|term rest IH]; cbn.
  - split; [intros _ u []|reflexivity].
  - destruct (String.eqb_spec (Term.name term) name) as [Heq|Hne].
    + split; [discriminate|].
      intros H. exfalso. apply (H term); [left; reflexivity | exact Heq].
    + rewrite IH. split.
      * intros H u [<-|Hin]; [exact Hne | apply H, Hin].
      * intros H u Hin. apply H. right. exact Hin.
Qed.

(** [term(name)] returns a term exactly when it is the first term of that
    name in the order of the terms. *)
Theorem term_returns_first_match (self : Variable_.t) (name : string)
  (t : Term.t) :
  Variable_.term repr_names self name = Py.Ok t <->
  exists before after,
    Variable_.terms self = before ++ t :: after /\ Term.name t = name /\
    forall u, In u before -> Term.name u <> name.
Proof.
  rewrite <- term_loop_found. unfold Variable_.term.
  destruct (Variable_.term_loop (Variable_.terms self) name);
    split; congruence.
Qed.

(** [term(name)] raises a [ValueError] exactly when no term has that name,
    and it raises nothing else. *)
Theorem term_raises_iff_absent (self : Variable_.t) (name : string) :
  ((forall u, In u (Variable_.terms self) -> Term.name u <> name) <->
   exists msg,
     Variable_.term repr_names self name = Py.Raise (Py.ValueError msg)) /\
  (forall e, Variable_.term repr_names self name = Py.Raise e ->
             Py.is_ValueError e = true).
Proof.
  unfold Variable_.term. split.
  - rewrite <- term_loop_none.
    destruct (Variable_.term_loop (Variable_.terms self) name).
    + split; [discriminate | intros [msg H]; discriminate].
    + split; [intros _; eexists; reflexivity | reflexivity].
  - intros e.
    destruct (Variable_.term_loop (Variable_.terms self) name);
      [discriminate|]. intros [= <-]. reflexivity.
Qed.

(** Where the names of the terms are distinct, every term of the variable
    is found under its own name. *)
Theorem term_round_trip (self : Variable_.t) (t : Term.t) :
  NoDup (map Term.name (Variable_.terms self)) ->
  In t (Variable_.terms self) ->
  Variable_.term repr_names self (Term.name t) = Py.Ok t.
Proof.
  intros Hnodup Hin. unfold Variable_.term.
  assert (H : Variable_.term_loop (Variable_.terms self) (Term.name t)
              = Some t).
  { induction (Variable_.terms self) as [|term rest IH]; [contradiction|].
    cbn in Hnodup. apply NoDup_cons_iff in Hnodup as [Hfresh Hnodup].
    cbn. destruct (String.eqb_spec (Term.name term) (Term.name t))
      as [Heq|Hne].
    - destruct Hin as [->|Hin]; [reflexivity|].
      exfalso. apply Hfresh. rewrite Heq. apply in_map, Hin.
    - destruct Hin as [->|Hin]; [contradiction|]. apply IH; assumption. }
  rewrite H. reflexivity.
Qed.

End TermLookup.

Lemma term_first_of_two_left :
  Variable_.term Example.repr_names Example.ambiguous "left"
    = Py.Ok (Example.constant "left" Example.quarter).
Proof.
  apply (term_returns_first_match Example.repr_names Example.ambiguous).
  exists [], [Example.constant "right" Example.half;
              Example.constant "left" Example.one].
  split; [reflexivity|]. split; [reflexivity|]. intros u [].
Defined.

Lemma term_missing_in_obstacle :
  exists msg,
    Variable_.term Example.repr_names Example.obstacle "behind"
      = Py.Raise (Py.ValueError msg).
Proof.
  apply (term_raises_iff_absent Example.repr_names Example.obstacle "behind").
  intros u Hin.
  repeat (destruct Hin as [<-|Hin]; [discriminate|]). contradiction.
Defined.

Lemma term_round_trip_obstacle :
  Variable_.term Example.repr_names Example.obstacle "right"
    = Py.Ok (Example.constant "right" Example.minus_half).
Proof.
  apply (term_round_trip Example.repr_names Example.obstacle
           (Example.constant "right" Example.minus_half)).
  - repeat (constructor; [cbn; intuition discriminate|]). constructor.
  - right. right. left. reflexivity.
Defined.

(** ** The property range *)



(** ** The fields of __repr__ *)

Section ReprFields.

Lemma Variable_repr_fields_closed (v : Variable_.t) :
  Variable_.repr_fields v =
  Py.Ok
    ([("name"%string, Dict.Str (Variable_.name v))]
     ++ (if str_truth (Variable_.description v)
         then [("description"%string, Dict.Str (Variable_.description v))]
         else [])
     ++ (if Variable_.enabled v
         then []
         else [("enabled"%string, Dict.Bool (Variable_.enabled v))])
     ++ [("minimum"%string, Dict.Float (Variable_.minimum v));
         ("maximum"%string, Dict.Float (Variable_.maximum v));
         ("lock_range"%string, Dict.Bool (Variable_.lock_range v));
         ("terms"%string, Dict.Terms (Variable_.terms v))]).
Proof.
  destruct v as [n d e lo hi lr ts val]. destruct d, e; reflexivity.
Qed.

(** [Variable.__repr__] pops its keys without a [KeyError]; the fields it
    hands on hold no value, hold the description unless it is empty and
    [enabled] unless it is true; and two variables have the same fields
    exactly when they differ in the value held at most. *)
Theorem Variable_repr_fields_determine (v w : Variable_.t) :
  (exists fields,
      Variable_.repr_fields v = Py.Ok fields /\
      Dict.has fields "_value" = false /\
      Dict.has fields "description" = str_truth (Variable_.description v) /\
      Dict.has fields "enabled" = negb (Variable_.enabled v)) /\
  (Variable_.repr_fields v = Variable_.repr_fields w <->
   Variable_.with__value v [] = Variable_.with__value w []).
Proof.
  rewrite !Variable_repr_fields_closed. split.
  - eexists. split; [reflexivity|].
    destruct v as [n d e lo hi lr ts val]. destruct d, e; repeat split.
  - destruct v as [n d e lo hi lr ts val], w as [n' d' e' lo' hi' lr' ts' val'].
    unfold Variable_.with__value. cbn.
    destruct d, e, d', e'; cbn; split; intros H; try discriminate;
      injection H; intros; subst; reflexivity.
Qed.

Lemma OutputVariable_repr_fields_closed (v : OutputVariable.t) :
  OutputVariable.repr_fields v =
  Py.Ok
    ([("name"%string, Dict.Str (OutputVariable.name v))]
     ++ (if str_truth (OutputVariable.description v)
         then [("description"%string,
                Dict.Str (OutputVariable.description v))]
         else [])
     ++ (if OutputVariable.enabled v
         then []
         else [("enabled"%string, Dict.Bool (OutputVariable.enabled v))])
     ++ [("lock_range"%string, Dict.Bool (OutputVariable.lock_range v));
         ("terms"%string, Dict.Terms (OutputVariable.terms v));
         ("defuzzifier"%string, Dict.Defuzz (OutputVariable.defuzzifier v));
         ("lock_previous"%string,
          Dict.Bool (OutputVariable.lock_previous v));
         ("default_value"%string,
          Dict.Float (OutputVariable.default_value v));
         ("minimum"%string, Dict.Float (OutputVariable.minimum v));
         ("maximum"%string, Dict.Float (OutputVariable.maximum v));
         ("aggregation"%string, Dict.Norm (OutputVariable.aggregation v))]).
Proof.
  destruct v as [fz n d e lr ts val df lp dv pv]. destruct d, e; reflexivity.
Qed.

Lemma OutputVariable_repr_fields_iff (v w : OutputVariable.t) :
  OutputVariable.repr_fields v = OutputVariable.repr_fields w <->
  same_configuration v w.
Proof.
  rewrite !OutputVariable_repr_fields_closed. unfold same_configuration.
  destruct v as [fz n d e lr ts val df lp dv pv],
           w as [fz' n' d' e' lr' ts' val' df' lp' dv' pv'].
  unfold OutputVariable.minimum, OutputVariable.maximum,
    OutputVariable.aggregation. cbn.
  destruct d, e, d', e'; cbn; split; intros H;
    try discriminate;
    try (injection H; intros; subst; repeat split; assumption);
    try (destruct H as (? & ? & ? & ? & ? & ? & ? & ? & ? & ? & ?);
         try discriminate; subst; congruence).
Qed.

(** [OutputVariable.__repr__] pops its keys without a [KeyError]; the
    fields hold neither the fuzzy set nor the value nor the previous
    value; and two output variables have the same fields exactly when they
    have the same configuration. *)
Theorem OutputVariable_repr_fields_determine (v w : OutputVariable.t) :
  (exists fields,
      OutputVariable.repr_fields v = Py.Ok fields /\
      Dict.has fields "fuzzy" = false /\
      Dict.has fields "_value" = false /\
      Dict.has fields "previous_value" = false /\
      Dict.has fields "minimum" = true /\
      Dict.has fields "maximum" = true /\
      Dict.has fields "aggregation" = true) /\
  (OutputVariable.repr_fields v = OutputVariable.repr_fields w <->
   same_configuration v w).
Proof.
  split; [|apply OutputVariable_repr_fields_iff].
  rewrite OutputVariable_repr_fields_closed.
  eexists. split; [reflexivity|].
  destruct (str_truth (OutputVariable.description v)),
    (OutputVariable.enabled v); repeat split.
Qed.

(** The fields of [__repr__] are the same before and after [defuzzify()]
    and before and after [clear()], whatever the calls do. *)
Theorem repr_fields_unchanged_by_passes (self : OutputVariable.t) :
  OutputVariable.repr_fields (snd (OutputVariable.defuzzify self))
    = OutputVariable.repr_fields self /\
  OutputVariable.repr_fields (snd (OutputVariable.clear self))
    = OutputVariable.repr_fields self.
Proof.
  split; apply OutputVariable_repr_fields_iff.
  - destruct (defuzzify_cases self)
      as [(r & Hr & _)
         | [(d & p & He & Hd & Hraw & Hp & Hlp)
           | (d & raw & p & He & Hd & Hraw & Hp & Hit)]].
    + rewrite Hr. repeat split.
    + rewrite (defuzzify_zero_sized self d p He Hd Hraw Hp Hlp).
      repeat split.
    + rewrite (defuzzify_commits self d raw p He Hd Hraw Hp Hit).
      repeat split.
  - repeat split.
Qed.

End ReprFields.

Lemma Variable_repr_fields_of_obstacle :
  Variable_.repr_fields Example.obstacle
    = Variable_.repr_fields
        (Variable_.set_value Example.obstacle (scalar Example.half)).
Proof.
  apply (Variable_repr_fields_determine Example.obstacle
           (Variable_.set_value Example.obstacle (scalar Example.half))).
  reflexivity.
Defined.

Lemma OutputVariable_repr_fields_of_steer :
  OutputVariable.repr_fields Example.steer
    = OutputVariable.repr_fields Example.steer_next.
Proof.
  apply (OutputVariable_repr_fields_determine Example.steer
           Example.steer_next).
  repeat split.
Defined.

(** ** What a pass stores, and what a failed pass leaves *)

Section PassOutcomes.

Import OutputVariable.

Lemma defuzzify_when_disabled (self : t) :
  enabled self = false -> defuzzify self = (Py.Ok tt, self).
Proof.
  intros He. unfold defuzzify, bind, get, ret. cbn.
  rewrite He. reflexivity.
Qed.


Lemma isnan_true (x : float) : Np.isnan x = true -> x = nan.
Proof. destruct x; cbn; intros H; try discriminate. reflexivity. Qed.




(** The precedence for a NaN result.  A pass whose defuzzifier yields NaN
    stores, through the setter, the last value held when [lock_previous]
    is set and that value is not NaN (an infinite one included), and the
    default otherwise (NaN when the default is NaN). *)
Theorem nan_result_precedence (self : t) (d : Defuzzifier.t) (p : float) :
  enabled self = true ->
  defuzzifier self = Some d ->
  Defuzzifier.defuzzify d (fuzzy self) (minimum self) (maximum self)
    = Py.Ok (scalar nan) ->
  Np.take_last (value self) = Py.Ok p ->
  fst (defuzzify self) = Py.Ok tt /\
  value (snd (defuzzify self)) =
    locked_value (lock_range self) (minimum self) (maximum self)
      (scalar (nan_replacement self p)).
Proof.
  intros He Hd Hraw Hp.
  rewrite (defuzzify_commits self d _ p He Hd Hraw Hp
             (scalar_iterable _ nan)).
  split; [reflexivity|]. cbn [snd]. rewrite value_set_value.
  cbn [with_previous_value lock_range minimum maximum fuzzy].
  f_equal. unfold finalized, nan_replacement.
  destruct (lock_previous self); cbn [lock_previous_loop scalar Np.isnan nan
                                       andb].
  - destruct (Np.isnan p) eqn:Hnan; cbn [negb].
    + rewrite (isnan_true p Hnan).
      destruct (Np.isnan (default_value self)) eqn:Hdv; cbn;
        [rewrite (isnan_true _ Hdv)|]; reflexivity.
    + destruct (Np.isnan (default_value self)); cbn; rewrite ?Hnan;
        reflexivity.
  - destruct (Np.isnan (default_value self)) eqn:Hdv; cbn;
      [rewrite (isnan_true _ Hdv)|]; reflexivity.
Qed.


(** Where the result of the defuzzifier has elements, a call of
    [defuzzify()] that raises leaves the object as it was before the call:
    the missing defuzzifier, the failing defuzzifier and the empty value
    held are all found before the first assignment. *)
Theorem defuzzify_raise_leaves_object (self : t) (e : Py.exn) :
  result_has_elements self ->
  fst (defuzzify self) = Py.Raise e ->
  snd (defuzzify self) = self.
Proof.
  intros Hres Hraise.
  destruct (defuzzify_cases self)
    as [(r & Hr & _)
       | [(d & p & He & Hd & Hraw & Hp & Hlp)
         | (d & raw & p & He & Hd & Hraw & Hp & Hit)]].
  - rewrite Hr. reflexivity.
  - contradiction (Hres d [] Hd Hraw eq_refl).
  - rewrite (defuzzify_commits self d raw p He Hd Hraw Hp Hit) in Hraise.
    discriminate.
Qed.

(** Where the result of the defuzzifier has elements, [defuzzify()] raises
    in three cases only, all on an enabled variable: there is no
    defuzzifier, the defuzzifier raises, or the value held is an empty
    array, of which [np.take] finds no last element. *)
Theorem defuzzify_raises_iff (self : t) :
  result_has_elements self ->
  (exists e, fst (defuzzify self) = Py.Raise e) <->
  enabled self = true /\
  (defuzzifier self = None \/
   (exists d e,
       defuzzifier self = Some d /\
       Defuzzifier.defuzzify d (fuzzy self) (minimum self) (maximum self)
         = Py.Raise e) \/
   ((exists d, defuzzifier self = Some d) /\ value self = [])).
Proof.
  intros Hres. split.
  - intros [e Hraise].
    destruct (enabled self) eqn:He.
    + split; [reflexivity|].
      destruct (defuzzifier self) as [d|] eqn:Hd; [|left; reflexivity].
      right.
      destruct (Defuzzifier.defuzzify d (fuzzy self) (minimum self)
                  (maximum self)) as [raw|e'] eqn:Hraw.
      * right. split; [exists d; reflexivity|].
        destruct (value self) as [|y rest] eqn:Hv; [reflexivity|].
        assert (Hne : value self <> []) by (rewrite Hv; discriminate).
        destruct (take_last_nonempty (value self) Hne) as [p Hp].
        rewrite (defuzzify_commits self d raw p He Hd Hraw Hp
                   (fun _ => Hres d raw Hd Hraw)) in Hraise.
        discriminate.
      * left. exists d, e'. split; [reflexivity | exact Hraw].
    + rewrite (defuzzify_when_disabled self He) in Hraise. discriminate.
  - intros [He [Hd | [(d & e & Hd & Hraw) | [[d Hd] Hv]]]].
    + eexists. rewrite (defuzzify_missing_defuzzifier self He Hd).
      reflexivity.
    + exists e. unfold defuzzify, bind, get, call. cbn.
      rewrite He. cbn. rewrite Hd, Hraw. reflexivity.
    + destruct (Defuzzifier.defuzzify d (fuzzy self) (minimum self)
                  (maximum self)) as [raw|e'] eqn:Hraw.
      * assert (Hp : Np.take_last (value self)
                     = Np.take_last []) by (rewrite Hv; reflexivity).
        eexists. unfold defuzzify, bind, get_value, get, call. cbn.
        rewrite He. cbn. rewrite Hd, Hraw, Hp. reflexivity.
      * exists e'. unfold defuzzify, bind, get, call. cbn.
        rewrite He. cbn. rewrite Hd, Hraw. reflexivity.
Qed.

End PassOutcomes.

Section FailedPasses.

Import OutputVariable.

(** Without [lock_previous], a pass whose defuzzifier yields the empty
    array stores the empty array, whatever the default and the range lock;
    and on a variable that holds the empty array a pass raises an
    [IndexError], after the defuzzifier returned and before any
    assignment. *)
Theorem empty_result_then_index_error (self : t) (d : Defuzzifier.t)
  (p : float) (next : t) (d' : Defuzzifier.t) (raw : Scalar) :
  enabled self = true ->
  defuzzifier self = Some d ->
  Defuzzifier.defuzzify d (fuzzy self) (minimum self) (maximum self)
    = Py.Ok [] ->
  lock_previous self = false ->
  Np.take_last (value self) = Py.Ok p ->
  enabled next = true ->
  defuzzifier next = Some d' ->
  Defuzzifier.defuzzify d' (fuzzy next) (minimum next) (maximum next)
    = Py.Ok raw ->
  value next = [] ->
  (fst (defuzzify self) = Py.Ok tt /\ value (snd (defuzzify self)) = []) /\
  (exists msg, defuzzify next = (Py.Raise (Py.IndexError msg), next)).
Proof.
  intros He Hd Hraw Hlp Hp He' Hd' Hraw' Hv. split.
  - assert (Hit : lock_previous self = true -> @nil float <> [])
      by (rewrite Hlp; discriminate).
    rewrite (defuzzify_commits self d [] p He Hd Hraw Hp Hit).
    split; [reflexivity|]. cbn [snd]. rewrite value_set_value.
    unfold finalized, locked_value. rewrite Hlp. cbn.
    destruct (negb (Np.isnan (default_value self))), (lock_range self);
      reflexivity.
  - assert (Hlast : Np.take_last (value next) = Np.take_last [])
      by (rewrite Hv; reflexivity).
    eexists. unfold defuzzify, bind, get_value, get, call. cbn.
    rewrite He'. cbn. rewrite Hd', Hraw', Hlast. reflexivity.
Qed.

End FailedPasses.

Lemma nan_result_precedence_steer :
  fst (OutputVariable.defuzzify Example.steer) = Py.Ok tt /\
  OutputVariable.value (snd (OutputVariable.defuzzify Example.steer))
    = scalar Example.f0_8.
Proof.
  apply (nan_result_precedence Example.steer
           (Example.two_valued nan Example.f1_7) Example.f0_8);
    reflexivity.
Defined.


Lemma failed_pass_leaves_unaggregated :
  snd (OutputVariable.defuzzify Example.unaggregated) = Example.unaggregated.
Proof.
  apply (defuzzify_raise_leaves_object Example.unaggregated
           (Py.ValueError "no aggregation")).
  - intros d raw [= <-] Hraw. discriminate.
  - reflexivity.
Defined.

Lemma emptied_variable_raises :
  exists e, fst (OutputVariable.defuzzify Example.emptied) = Py.Raise e.
Proof.
  apply (defuzzify_raises_iff Example.emptied).
  - intros d raw [= <-] Hraw. cbn in Hraw. injection Hraw as <-.
    discriminate.
  - split; [reflexivity|]. right. right.
    split; [eexists; reflexivity | reflexivity].
Defined.

Lemma empty_result_on_hollowed :
  (fst (OutputVariable.defuzzify Example.hollowed) = Py.Ok tt /\
   OutputVariable.value (snd (OutputVariable.defuzzify Example.hollowed))
     = []) /\
  (exists msg,
      OutputVariable.defuzzify
        (snd (OutputVariable.defuzzify Example.hollowed))
      = (Py.Raise (Py.IndexError msg),
         snd (OutputVariable.defuzzify Example.hollowed))).
Proof.
  apply (empty_result_then_index_error Example.hollowed Example.hollow
           Example.f0_8 (snd (OutputVariable.defuzzify Example.hollowed))
           Example.hollow []);
    reflexivity.
Defined.

(** ** Exceptions of the memberships that are not suppressed *)

Section MembershipErrors.

Variable Op_str : float -> string.
Variable x : float.

Lemma fuzzify_loop_returns (terms : list Term.t) :
  evaluation_errors_only x terms ->
  forall result,
    exists result',
      Variable_.fuzzify_loop Op_str x terms result = Py.Ok result'.
Proof.
  induction terms as [|term rest IH]; intros Herr result.
  - exists result. reflexivity.
  - destruct (evaluation_errors_only_cons x term rest Herr) as [Hfx Hrest].
    cbn [Variable_.fuzzify_loop]. rewrite Hfx. cbn [Py.bind].
    apply IH, Hrest.
Qed.

Lemma fuzzify_loop_app (before after : list Term.t) (result : list string) :
  Variable_.fuzzify_loop Op_str x (before ++ after) result =
  (result' <~ Variable_.fuzzify_loop Op_str x before result ;;
   Variable_.fuzzify_loop Op_str x after result').
Proof.
  revert result.
  induction before as [|term rest IH]; intros result; [reflexivity|].
  cbn [app Variable_.fuzzify_loop].
  destruct (Py.suppress_ValueError nan (Term.membership term x));
    cbn [Py.bind]; [apply IH | reflexivity].
Qed.

Lemma highest_membership_loop_returns (terms : list Term.t) :
  evaluation_errors_only x terms ->
  forall result,
    exists result',
      Variable_.highest_membership_loop x terms result = Py.Ok result'.
Proof.
  induction terms as [|term rest IH]; intros Herr result.
  - exists result. reflexivity.
  - destruct (evaluation_errors_only_cons x term rest Herr) as [Hy Hrest].
    cbn [Variable_.highest_membership_loop]. rewrite Hy. cbn [Py.bind].
    apply IH, Hrest.
Qed.

Lemma highest_membership_loop_app (before after : list Term.t)
  (result : float * option Term.t) :
  Variable_.highest_membership_loop x (before ++ after) result =
  (result' <~ Variable_.highest_membership_loop x before result ;;
   Variable_.highest_membership_loop x after result').
Proof.
  revert result.
  induction before as [|term rest IH]; intros result; [reflexivity|].
  cbn [app Variable_.highest_membership_loop].
  destruct (Py.suppress_ValueError nan (Term.membership term x));
    cbn [Py.bind]; [apply IH | reflexivity].
Qed.

(** Only a [ValueError] of a membership is suppressed: when the first
    membership that raises anything else raises [e], [fuzzify(x)] and
    [highest_membership(x)] raise [e], whatever the terms after it do. *)
Theorem membership_error_propagates (self : Variable_.t)
  (before after : list Term.t) (t : Term.t) (e : Py.exn) :
  Variable_.terms self = before ++ t :: after ->
  evaluation_errors_only x before ->
  Term.membership t x = Py.Raise e ->
  Py.is_ValueError e = false ->
  Variable_.fuzzify Op_str self x = Py.Raise e /\
  Variable_.highest_membership self x = Py.Raise e.
Proof.
  intros Hsplit Herr Hraise Hclass.
  unfold Variable_.fuzzify, Variable_.highest_membership. rewrite Hsplit.
  rewrite fuzzify_loop_app, highest_membership_loop_app.
  destruct (fuzzify_loop_returns before Herr []) as [r Hr].
  destruct (highest_membership_loop_returns before Herr (zero, None))
    as [h Hh].
  rewrite Hr, Hh. cbn [Py.bind].
  cbn [Variable_.fuzzify_loop Variable_.highest_membership_loop].
  rewrite Hraise. unfold Py.suppress_ValueError. rewrite Hclass.
  split; reflexivity.
Qed.

End MembershipErrors.

Lemma membership_error_in_faulty :
  Variable_.fuzzify Example.Op_str Example.faulty Example.half
    = Py.Raise (Py.Exception "TypeError" "bad operand") /\
  Variable_.highest_membership Example.faulty Example.half
    = Py.Raise (Py.Exception "TypeError" "bad operand").
Proof.
  apply (membership_error_propagates Example.Op_str Example.half
           Example.faulty
           [Example.constant "left" Example.quarter; Example.failing "ahead"]
           [Example.constant "far" Example.quarter]
           (Example.broken "right"));
    try reflexivity.
  intros term e Hin Hraise.
  repeat (destruct Hin as [<-|Hin]; [cbn in Hraise; try discriminate|]);
    try contradiction.
  injection Hraise as <-. reflexivity.
Defined.

(** ** OutputVariable.fuzzy_value *)

Section FuzzyValue.

Variable Op_str : float -> string.
Variable activation_degree : Aggregated.t -> Term.t -> float.

Lemma nan_or_nonnegative (degree : float) :
  Op.isnan degree || Np.ge degree zero = negb (Np.lt degree zero).
Proof. destruct degree as [[]|[]| |[] m e]; reflexivity. Qed.

Lemma fuzzy_value_loop_appends (fuzzy : Aggregated.t) (terms : list Term.t) :
  forall result,
    result <> [] ->
    OutputVariable.fuzzy_value_loop Op_str activation_degree fuzzy terms
      result
    = result ++ map (fuzzy_later_entry Op_str activation_degree fuzzy) terms.
Proof.
  induction terms as [|term rest IH]; intros result Hne; cbn.
  - rewrite app_nil_r. reflexivity.
  - rewrite IH by (destruct result; discriminate).
    rewrite <- app_assoc. cbn. f_equal. f_equal.
    destruct result as [|s result]; [contradiction|].
    unfold OutputVariable.fuzzy_value_entry, fuzzy_later_entry,
      spec_separator.
    rewrite nan_or_nonnegative.
    destruct (Np.lt (activation_degree fuzzy term) zero); reflexivity.
Qed.

(** [fuzzy_value()] is the concatenation of one entry per term, in the
    order of the terms: the first is [Op.str(degree)/name] with the sign
    of the degree in the number; a later one is a blank, the sign [-] for
    a negative degree and [+] for any other, a blank, then
    [Op.str(fabs(degree))/name], whose number is never negative. *)
Theorem fuzzy_value_format (self : OutputVariable.t) :
  OutputVariable.fuzzy_value Op_str activation_degree self
    = String.concat ""
        (fuzzy_entries Op_str activation_degree (OutputVariable.fuzzy self)
           (OutputVariable.terms self)) /\
  List.length
    (fuzzy_entries Op_str activation_degree (OutputVariable.fuzzy self)
       (OutputVariable.terms self))
    = List.length (OutputVariable.terms self) /\
  (forall t,
      Np.lt (Np.fabs (activation_degree (OutputVariable.fuzzy self) t)) zero
      = false).
Proof.
  unfold OutputVariable.fuzzy_value.
  destruct (OutputVariable.terms self) as [|term rest].
  - repeat split. intros t.
    destruct (activation_degree (OutputVariable.fuzzy self) t)
      as [[]|[]| |[] m e]; reflexivity.
  - cbn [OutputVariable.fuzzy_value_loop].
    rewrite fuzzy_value_loop_appends by discriminate.
    split; [reflexivity|]. split.
    + cbn. rewrite List.length_map. reflexivity.
    + intros t.
      destruct (activation_degree (OutputVariable.fuzzy self) t)
        as [[]|[]| |[] m e]; reflexivity.
Qed.

End FuzzyValue.

Example fuzzy_value_of_steering :
  OutputVariable.fuzzy_value Example.decimals Example.activation_degree
    Example.steering
  = "0.250/right - 0.500/left"%string.
Proof. reflexivity. Qed.

(** ** clear and the constructor *)

Section ClearAndInit.

Import OutputVariable.

(** [clear()] is idempotent, and a variable as its constructor leaves it is
    a cleared variable: [clear()] does not change it. *)
Theorem clear_idempotent_and_initial (self : t)
  (name description : string) (enabled : bool) (lo hi : float)
  (lock_range lock_previous : bool) (default_value : float)
  (aggregation : option SNorm) (defuzzifier : option Defuzzifier.t)
  (terms : list Term.t) :
  clear (snd (clear self)) = (Py.Ok tt, snd (clear self)) /\
  clear (__init__ name description enabled lo hi lock_range lock_previous
           default_value aggregation defuzzifier terms)
  = (Py.Ok tt,
     __init__ name description enabled lo hi lock_range lock_previous
       default_value aggregation defuzzifier terms).
Proof.
  split.
  - unfold clear, bind, assign, set_value, locked_value. cbn.
    destruct (OutputVariable.lock_range self); reflexivity.
  - unfold clear, bind, assign, __init__, set_value, locked_value. cbn.
    destruct lock_range; reflexivity.
Qed.

End ClearAndInit.

(** ** The default value *)

Section DefaultValue.

Import OutputVariable.


End DefaultValue.


(** ** A result without elements under lock_previous *)

Section ZeroSizedResult.

Import OutputVariable.

(** With [lock_previous], a pass whose defuzzifier returns an array without
    elements raises a [ValueError] from [np.nditer]; [previous_value] was
    assigned before, and is the last element of the value held; the value
    held and the fuzzy set stay as they were. *)
Theorem zero_sized_result_raises_late (self : t) (d : Defuzzifier.t)
  (p : float) :
  enabled self = true ->
  defuzzifier self = Some d ->
  Defuzzifier.defuzzify d (fuzzy self) (minimum self) (maximum self)
    = Py.Ok [] ->
  Np.take_last (value self) = Py.Ok p ->
  lock_previous self = true ->
  (exists msg, fst (defuzzify self) = Py.Raise (Py.ValueError msg)) /\
  previous_value (snd (defuzzify self)) = p /\
  value (snd (defuzzify self)) = value self /\
  fuzzy (snd (defuzzify self)) = fuzzy self.
Proof.
  intros He Hd Hraw Hp Hlp.
  rewrite (defuzzify_zero_sized self d p He Hd Hraw Hp Hlp).
  split; [eexists; reflexivity|]. split; [|split]; reflexivity.
Qed.

End ZeroSizedResult.

Lemma zero_sized_result_on_hollowed_locked :
  (exists msg,
      fst (OutputVariable.defuzzify Example.hollowed_locked)
      = Py.Raise (Py.ValueError msg)) /\
  OutputVariable.previous_value
    (snd (OutputVariable.defuzzify Example.hollowed_locked)) = Example.f0_8 /\
  OutputVariable.value
    (snd (OutputVariable.defuzzify Example.hollowed_locked))
    = OutputVariable.value Example.hollowed_locked /\
  OutputVariable.fuzzy
    (snd (OutputVariable.defuzzify Example.hollowed_locked))
    = OutputVariable.fuzzy Example.hollowed_locked.
Proof.
  apply (zero_sized_result_raises_late Example.hollowed_locked
           Example.hollow Example.f0_8);
    reflexivity.
Defined.

Example hollowed_locked_previous_value_changes :
  OutputVariable.previous_value Example.hollowed_locked = nan /\
  OutputVariable.previous_value
    (snd (OutputVariable.defuzzify Example.hollowed_locked)) = Example.f0_8.
Proof. split; reflexivity. Qed.
